(** * nutri-parsing: the reshaping and orchestration logic of [app.py]

    A shallow embedding of the Python functions [json_to_text],
    [get_weekly_plan], [process_pdf_llamaparse] and [process_md_gpt],
    and the properties of them that the specification states.

    Python values are the values [json.loads] builds.  Exceptions are an
    explicit [result]; the Streamlit calls, the memo table of
    [st.cache_data] and the two hosted services live in an explicit
    [World] that is threaded through the orchestration functions. *)

From stdpp Require Import base list strings gmap.
From Stdlib Require Import ZArith Ascii Floats.SpecFloat.

(** ** Python strings *)

Module PyStr.

(** The line feed, Python's ["\n"]. *)
Definition nl : string := String "010"%char EmptyString.

(** [sep.join(parts)] *)
Definition join (sep : string) (parts : list string) : string :=
  String.concat sep parts.

(** [s * n] *)
Fixpoint repeat (s : string) (n : nat) : string :=
  match n with
  | O => ""
  | S n' => s +:+ repeat s n'
  end.

(** [s.replace(a, b)] for one-character [a] and [b]. *)
Fixpoint replace (a b : ascii) (s : string) : string :=
  match s with
  | EmptyString => EmptyString
  | String c s' => String (if Ascii.eqb c a then b else c) (replace a b s')
  end.

Definition upper (c : ascii) : ascii :=
  let n := Ascii.nat_of_ascii c in
  if (97 <=? n)%nat && (n <=? 122)%nat then Ascii.ascii_of_nat (n - 32) else c.

Definition lower (c : ascii) : ascii :=
  let n := Ascii.nat_of_ascii c in
  if (65 <=? n)%nat && (n <=? 90)%nat then Ascii.ascii_of_nat (n + 32) else c.

Fixpoint lower_all (s : string) : string :=
  match s with
  | EmptyString => EmptyString
  | String c s' => String (lower c) (lower_all s')
  end.

(** [s.capitalize()] on an ASCII string: the source applies it to the
    five meal keys only. *)
Definition capitalize (s : string) : string :=
  match s with
  | EmptyString => EmptyString
  | String c s' => String (upper c) (lower_all s')
  end.

(** [p in s] for two strings.  Strings are UTF-8 byte sequences here and
    code-point sequences in Python; the source only searches for ASCII
    patterns, for which the two agree. *)
Fixpoint contains (p s : string) : bool :=
  String.prefix p s ||
  match s with
  | EmptyString => false
  | String _ s' => contains p s'
  end.

End PyStr.

(** ** Python values, as [json.loads] builds them *)

Inductive number :=
| NInt (z : Z)
| NFloat (f : spec_float).

#[local] Unset Elimination Schemes.
Inductive json :=
| JNull
| JBool (b : bool)
| JNum (n : number)
| JStr (s : string)
| JList (l : list json)
| JDict (d : list (string * json)).
#[local] Set Elimination Schemes.

(** A [dict] keeps its keys in insertion order: an association list. *)
Abbreviation dict V := (list (string * V)).

(** Exceptions the reshaping functions can raise. *)
Inductive exn :=
| AttributeError
| TypeError
| KeyError.

Inductive result (A : Type) :=
| Ok (a : A)
| Raise (e : exn).
Arguments Ok {A} a.
Arguments Raise {A} e.

#[global] Instance result_ret : MRet result := λ A a, Ok a.
#[global] Instance result_bind : MBind result := λ A B k r,
  match r with
  | Ok a => k a
  | Raise e => Raise e
  end.

(** [for x in l: s = body(x, s)] with exceptions: the loop stops at the
    first iteration that raises. *)
Fixpoint for_each {A S} (l : list A) (body : A → S → result S) (s : S)
  : result S :=
  match l with
  | [] => Ok s
  | x :: l' => s' ← body x s; for_each l' body s'
  end.

(** What Python's built-ins do that the value model leaves open. *)
Class Builtins := {
  (** [str(v)] for a value that is not a [str] ([None], a number, a list,
      a dict): what an f-string prints for it. *)
  py_str : json → string;
  (** The one-character strings of a [str], in order: what iterating over
      it yields. *)
  py_chars : string → list string;
}.

Module Py.

Fixpoint lookup {V} (k : string) (d : dict V) : option V :=
  match d with
  | [] => None
  | (k', v) :: d' => if String.eqb k' k then Some v else lookup k d'
  end.

(** [d[k] = v]: replaces the value of an existing key in place, and adds
    a new key at the end. *)
Fixpoint set {V} (d : dict V) (k : string) (v : V) : dict V :=
  match d with
  | [] => [(k, v)]
  | (k', v') :: d' =>
      if String.eqb k' k then (k, v) :: d' else (k', v') :: set d' k v
  end.

(** [bool(v)] *)
Definition truthy (v : json) : bool :=
  match v with
  | JNull => false
  | JBool b => b
  | JNum (NInt z) => negb (z =? 0)%Z
  | JNum (NFloat (S754_zero _)) => false
  | JNum (NFloat _) => true
  | JStr s => negb (String.eqb s "")
  | JList [] => false
  | JList (_ :: _) => true
  | JDict [] => false
  | JDict (_ :: _) => true
  end.

(** [v.get(k, default)]: only a [dict] has the method. *)
Definition get (v : json) (k : string) (default : json) : result json :=
  match v with
  | JDict d => Ok (from_option id default (lookup k d))
  | _ => Raise AttributeError
  end.

(** [v[k]] for a string [k]. *)
Definition getitem (v : json) (k : string) : result json :=
  match v with
  | JDict d =>
      match lookup k d with
      | Some x => Ok x
      | None => Raise KeyError
      end
  | _ => Raise TypeError
  end.

Definition is_str (k : string) (v : json) : bool :=
  match v with
  | JStr s => String.eqb s k
  | _ => false
  end.

(** [k in v] for a string [k]: a key of a [dict], an element of a
    [list], a substring of a [str]; the other values are not
    containers. *)
Definition contains (k : string) (v : json) : result bool :=
  match v with
  | JDict d => Ok (bool_decide (is_Some (lookup k d)))
  | JList l => Ok (existsb (is_str k) l)
  | JStr s => Ok (PyStr.contains k s)
  | _ => Raise TypeError
  end.

Section WithBuiltins.
Context `{Builtins}.

(** [for x in v]: the elements of a [list], the keys of a [dict], the
    characters of a [str]. *)
Definition iter (v : json) : result (list json) :=
  match v with
  | JList l => Ok l
  | JDict d => Ok (map (λ kv, JStr (fst kv)) d)
  | JStr s => Ok (map JStr (py_chars s))
  | _ => Raise TypeError
  end.

(** [f"{v}"] *)
Definition format (v : json) : string :=
  match v with
  | JStr s => s
  | _ => py_str v
  end.

End WithBuiltins.

End Py.

(** ** pandas *)

(** A [pandas.DataFrame] with the default integer index: the column
    labels and the rows of cells. *)
Record DataFrame := {
  columns : list string;
  values : list (list json);
}.

Module Pd.

(** The float [nan] that fills a missing cell. *)
Definition NaN : json := JNum (NFloat S754_nan).

Definition add_key (cols : list string) (k : string) : list string :=
  if existsb (String.eqb k) cols then cols else cols ++ [k].

(** [pandas.DataFrame(rows)] for a list of dicts: the columns are the
    keys of the rows in the order in which they first appear, and a row
    that lacks a column holds [nan] there.  An empty list gives a frame
    with no rows and no columns. *)
Definition DataFrame_of (rows : list (dict json)) : DataFrame :=
  let cols :=
    fold_left (λ cols row, fold_left add_key (map fst row) cols) rows [] in
  {| columns := cols;
     values :=
       map (λ row, map (λ c, from_option id NaN (Py.lookup c row)) cols)
           rows |}.

(** [df.shape] *)
Definition shape (df : DataFrame) : nat * nat :=
  (length (values df), length (columns df)).

Fixpoint index_of (c : string) (cols : list string) : option nat :=
  match cols with
  | [] => None
  | c' :: cols' =>
      if String.eqb c' c then Some 0 else S <$> index_of c cols'
  end.

(** [df.at[i, c]], [None] where pandas raises [KeyError]. *)
Definition at_ (df : DataFrame) (i : nat) (c : string) : option json :=
  row ← values df !! i;
  j ← index_of c (columns df);
  row !! j.

End Pd.

(** ** The renderers *)

(** The five meal keys, in the order both renderers walk them. *)
Definition pasto_keys : list string :=
  ["colazione"; "spuntino_mattina"; "pranzo"; "spuntino_pomeriggio"; "cena"].

Section Reshaping.
Context `{Builtins}.

(** *** [json_to_text] *)

(** The line of one food item (the f-string of both item loops). *)
Definition text_item (item : json) : result string :=
  alimento ← Py.get item "alimento" (JStr "N/A");
  quantita ← Py.get item "quantita" (JStr "N/A");
  mret ("    • " +:+ Py.format alimento +:+ ": " +:+ Py.format quantita).

(** [for item in items: output.append(...)] *)
Definition text_items (items : json) (output : list string)
  : result (list string) :=
  l ← Py.iter items;
  for_each l (λ item out, line ← text_item item; mret (out ++ [line]))
           output.

(** The body of the loop over the meal keys. *)
Definition text_pasto (giorno_data : json) (pasto_key : string)
    (output : list string) : result (list string) :=
  let output :=
    output ++ [PyStr.nl +:+
               PyStr.capitalize (PyStr.replace "_" " " pasto_key) +:+ ":"] in
  pasto_data ← Py.get giorno_data pasto_key (JDict []);
  principale ← Py.get pasto_data "principale" (JList []);
  alternative ← Py.get pasto_data "alternative" (JList []);
  output ←
    (if Py.truthy principale
     then text_items principale (output ++ ["  - Principale:"])
     else mret (output ++ ["  - Principale: Nessun dato"]));
  if Py.truthy alternative
  then text_items alternative (output ++ ["  - Alternative:"])
  else mret output.

(** The body of the loop over the days. *)
Definition text_giorno (giorno_data : json) (output : list string)
  : result (list string) :=
  giorno ← Py.get giorno_data "giorno" (JStr "Non specificato");
  let output := output ++ ["Giorno: " +:+ Py.format giorno] in
  output ← for_each pasto_keys (text_pasto giorno_data) output;
  mret (output ++ [PyStr.nl +:+ PyStr.repeat "-" 30 +:+ PyStr.nl]).

(** The notes block that closes the report. *)
Definition text_note (json_data : json) (output : list string)
  : result (list string) :=
  has_note ← Py.contains "note/consigli" json_data;
  if (has_note : bool) then
    note ← Py.getitem json_data "note/consigli";
    if Py.truthy note then
      l ← Py.iter note;
      for_each l (λ nota out, mret (out ++ ["• " +:+ Py.format nota]))
               (output ++ ["Note/Consigli:"])
    else mret output
  else mret output.

Definition invalid_data : string := "Dati JSON non validi o mancanti.".

Definition json_to_text (json_data : json) : result string :=
  if negb (Py.truthy json_data) then mret invalid_data else
  has_giorni ← Py.contains "giorni" json_data;
  if negb has_giorni then mret invalid_data else
  giorni ← Py.get json_data "giorni" (JList []);
  l ← Py.iter giorni;
  output ← for_each l text_giorno [];
  output ← text_note json_data output;
  mret (PyStr.join PyStr.nl output).

(** *** [get_weekly_plan] *)

(** [f"{alimento} ({quantita})"] of one food item. *)
Definition cell_item (item : json) : result string :=
  alimento ← Py.get item "alimento" (JStr "");
  quantita ← Py.get item "quantita" (JStr "");
  mret (Py.format alimento +:+ " (" +:+ Py.format quantita +:+ ")").

Definition cell_items (items : json) : result (list string) :=
  l ← Py.iter items;
  for_each l (λ item acc, s ← cell_item item; mret (acc ++ [s])) [].

(** The body of the loop over the meal keys: fills one cell of the
    row. *)
Definition weekly_pasto (giorno : json) (pasto_key : string)
    (giorno_row : dict json) : result (dict json) :=
  pasto ← Py.get giorno pasto_key (JDict []);
  principale ← Py.get pasto "principale" (JList []);
  contenuto ← cell_items principale;
  alt ← Py.get pasto "alternative" JNull;
  contenuto ←
    (if Py.truthy alt then
       items ← Py.getitem pasto "alternative";
       alternative ← cell_items items;
       mret (contenuto ++
             ["Alternative: " +:+ PyStr.join ", " alternative])
     else mret contenuto);
  mret (Py.set giorno_row pasto_key
          (JStr (match contenuto with
                 | [] => ""
                 | _ => PyStr.join PyStr.nl contenuto
                 end))).

(** The body of the loop over the days: builds one row. *)
Definition weekly_row (giorno : json) : result (dict json) :=
  label ← Py.get giorno "giorno" (JStr "");
  for_each pasto_keys (weekly_pasto giorno) [("giorno", label)].

Definition get_weekly_plan (json_output : json) : result DataFrame :=
  giorni ← Py.get json_output "giorni" (JList []);
  l ← Py.iter giorni;
  rows ← for_each l (λ giorno rows,
                       giorno_row ← weekly_row giorno;
                       mret (rows ++ [giorno_row])) [];
  mret (Pd.DataFrame_of rows).

End Reshaping.

(** ** The schema

    The shape [process_md_gpt] asks the language model for
    ([json_schema]), as typed records, and the Python value of each. *)

Record FoodItem := {
  alimento : string;
  quantita : string;
}.

Record MealSlot := {
  principale : list FoodItem;
  alternative : list FoodItem;
}.

Record DayPlan := {
  giorno : string;
  colazione : MealSlot;
  spuntino_mattina : MealSlot;
  pranzo : MealSlot;
  spuntino_pomeriggio : MealSlot;
  cena : MealSlot;
}.

Record MealPlan := {
  giorni : list DayPlan;
  note_consigli : list string;
}.

Inductive pasto :=
| Colazione
| SpuntinoMattina
| Pranzo
| SpuntinoPomeriggio
| Cena.

Definition pasti : list pasto :=
  [Colazione; SpuntinoMattina; Pranzo; SpuntinoPomeriggio; Cena].

Definition pasto_key (p : pasto) : string :=
  match p with
  | Colazione => "colazione"
  | SpuntinoMattina => "spuntino_mattina"
  | Pranzo => "pranzo"
  | SpuntinoPomeriggio => "spuntino_pomeriggio"
  | Cena => "cena"
  end.

Definition slot (d : DayPlan) (p : pasto) : MealSlot :=
  match p with
  | Colazione => colazione d
  | SpuntinoMattina => spuntino_mattina d
  | Pranzo => pranzo d
  | SpuntinoPomeriggio => spuntino_pomeriggio d
  | Cena => cena d
  end.

Module Schema.

Definition item_json (i : FoodItem) : json :=
  JDict [("alimento", JStr (alimento i)); ("quantita", JStr (quantita i))].

Definition slot_json (s : MealSlot) : json :=
  JDict [("principale", JList (map item_json (principale s)));
         ("alternative", JList (map item_json (alternative s)))].

Definition day_json (d : DayPlan) : json :=
  JDict [("giorno", JStr (giorno d));
         ("colazione", slot_json (colazione d));
         ("spuntino_mattina", slot_json (spuntino_mattina d));
         ("pranzo", slot_json (pranzo d));
         ("spuntino_pomeriggio", slot_json (spuntino_pomeriggio d));
         ("cena", slot_json (cena d))].

Definition plan_json (p : MealPlan) : json :=
  JDict [("giorni", JList (map day_json (giorni p)));
         ("note/consigli", JList (map JStr (note_consigli p)))].

End Schema.

(** A sample of the built-ins, to evaluate the renderers on concrete
    values: right on ASCII strings, and every value that is not a string
    prints as [<object>]. *)
Definition sample_builtins : Builtins := {|
  py_str := λ _, "<object>";
  py_chars := λ s, map (λ c, String c EmptyString) (String.list_ascii_of_string s);
|}.

(** ** What the specification says the two views are

    The report and the table in closed form over the typed schema,
    following the words of the specification with the literals of the
    source. *)

Module Spec.

Definition item_text (i : FoodItem) : string :=
  "    • " +:+ alimento i +:+ ": " +:+ quantita i.

Definition pasto_header (p : pasto) : string :=
  PyStr.nl +:+ PyStr.capitalize (PyStr.replace "_" " " (pasto_key p)) +:+ ":".

Definition no_data : string := "  - Principale: Nessun dato".

Definition pasto_lines (p : pasto) (s : MealSlot) : list string :=
  pasto_header p ::
  match principale s with
  | [] => [no_data]
  | items => "  - Principale:" :: map item_text items
  end ++
  match alternative s with
  | [] => []
  | items => "  - Alternative:" :: map item_text items
  end.

Definition separator : string :=
  PyStr.nl +:+ "------------------------------" +:+ PyStr.nl.

Definition giorno_lines (d : DayPlan) : list string :=
  ("Giorno: " +:+ giorno d) ::
  concat (map (λ p, pasto_lines p (slot d p)) pasti) ++ [separator].

Definition note_lines (note : list string) : list string :=
  match note with
  | [] => []
  | _ => "Note/Consigli:" :: map (λ nota, "• " +:+ nota) note
  end.

Definition report (plan : MealPlan) : string :=
  PyStr.join PyStr.nl
    (concat (map giorno_lines (giorni plan)) ++
     note_lines (note_consigli plan)).

Definition item_cell (i : FoodItem) : string :=
  alimento i +:+ " (" +:+ quantita i +:+ ")".

(** The primary items one per line, then, only when there are
    alternatives, one last line that lists them. *)
Definition cell_text (s : MealSlot) : string :=
  PyStr.join PyStr.nl
    (map item_cell (principale s) ++
     match alternative s with
     | [] => []
     | items =>
         ["Alternative: " +:+ PyStr.join ", " (map item_cell items)]
     end).

Definition row_cells (d : DayPlan) : list json :=
  JStr (giorno d) :: map (λ p, JStr (cell_text (slot d p))) pasti.

End Spec.

(** The row [get_weekly_plan] builds for a day of the schema. *)
Definition row_of (d : DayPlan) : dict json :=
  ("giorno", JStr (giorno d)) ::
  map (λ p, (pasto_key p, JStr (Spec.cell_text (slot d p)))) pasti.

(** The six column labels of a weekly table that has rows. *)
Definition weekly_columns : list string := "giorno" :: pasto_keys.

(** ** Streamlit, the hosted services and the session *)

(** What a call of [st.error], [st.info], ... puts on the page. *)
Inductive element :=
| st_error (body : string)
| st_warning (body : string)
| st_info (body : string)
| st_success (body : string)
| st_text (body : string)
| st_code (body : string).

(** An exception of a service or library call: its class, as far as the
    handlers of the source tell classes apart, and [str(e)]. *)
Inductive failure :=
| JSONDecodeError (msg : string)
| OtherException (msg : string).

Definition failure_str (e : failure) : string :=
  match e with
  | JSONDecodeError msg => msg
  | OtherException msg => msg
  end.

(** A document segment of the parsing service. *)
Record Document := { text : string }.

(** The arguments of the [LlamaParse] constructor. *)
Record LlamaParse := {
  api_key : string;
  result_type : string;
  language : string;
  use_vendor_multimodal_model : bool;
  vendor_multimodal_model_name : string;
}.

(** The arguments of [client.chat.completions.create]; a message is its
    role and its content. *)
Record ChatRequest := {
  model : string;
  messages : list (string * string);
  temperature : Z;
  max_tokens : Z;
  response_format : dict string;
}.

(** A completion: [choices[i].message.content] for each choice, which
    may be [None]. *)
Record ChatCompletion := { choices : list (option string) }.

(** A request sent over the network. *)
Inductive Call :=
| ParseCall (parser : LlamaParse) (pdf_file_path : string)
| ChatCall (key : string) (request : ChatRequest).

(** The two hosted services and the [json] module.  A service answers a
    request with a result or an exception, and its answer may depend on
    the requests sent before. *)
Class Services := {
  load_data : list Call → LlamaParse → string → failure + list Document;
  chat_completions_create :
    list Call → string → ChatRequest → failure + ChatCompletion;
  (** [json.loads(s)] *)
  json_loads : string → failure + json;
  (** [json.dumps(v, indent=2)] *)
  json_dumps : json → string;
}.

(** The state the orchestration functions read and change: the two
    module-level keys (an absent key is the empty string), the elements
    on the page, the requests sent so far and the memo table of
    [st.cache_data], which maps an argument to the value returned for it
    and the elements shown while it was computed. *)
Record World := {
  LLAMA_CLOUD_API_KEY : string;
  OPENAI_API_KEY : string;
  elements : list element;
  calls : list Call;
  cache_data : gmap string (option string * list element);
}.

Definition St (A : Type) : Type := World → A * World.

#[global] Instance St_ret : MRet St := λ A a w, (a, w).
#[global] Instance St_bind : MBind St := λ A B k m w,
  let (a, w') := m w in k a w'.

Module St.

Definition display (e : element) : St unit := λ w,
  (tt, {| LLAMA_CLOUD_API_KEY := LLAMA_CLOUD_API_KEY w;
          OPENAI_API_KEY := OPENAI_API_KEY w;
          elements := elements w ++ [e];
          calls := calls w;
          cache_data := cache_data w |}).

Definition replay (es : list element) : St unit := λ w,
  (tt, {| LLAMA_CLOUD_API_KEY := LLAMA_CLOUD_API_KEY w;
          OPENAI_API_KEY := OPENAI_API_KEY w;
          elements := elements w ++ es;
          calls := calls w;
          cache_data := cache_data w |}).

Definition sent (c : Call) : St unit := λ w,
  (tt, {| LLAMA_CLOUD_API_KEY := LLAMA_CLOUD_API_KEY w;
          OPENAI_API_KEY := OPENAI_API_KEY w;
          elements := elements w;
          calls := calls w ++ [c];
          cache_data := cache_data w |}).

Definition memoise (arg : string) (entry : option string * list element)
  : St unit := λ w,
  (tt, {| LLAMA_CLOUD_API_KEY := LLAMA_CLOUD_API_KEY w;
          OPENAI_API_KEY := OPENAI_API_KEY w;
          elements := elements w;
          calls := calls w;
          cache_data := <[arg := entry]> (cache_data w) |}).

Definition read {A} (f : World → A) : St A := λ w, (f w, w).

(** [@st.cache_data]: the memo table is keyed by the argument alone.  A
    hit returns the stored value and replays the stored elements
    without running the function; a miss runs it and stores its value
    with the elements it showed. *)
Definition cached (f : string → St (option string)) (arg : string)
  : St (option string) :=
  hit ← read (λ w, cache_data w !! arg);
  match hit with
  | Some (value, shown) => replay shown;; mret value
  | None =>
      before ← read (λ w, length (elements w));
      value ← f arg;
      shown ← read (λ w, drop before (elements w));
      memoise arg (value, shown);;
      mret value
  end.

End St.

Section Orchestrator.
Context `{Services}.

(** *** [process_pdf_llamaparse] *)

(** [parser.load_data(pdf_file_path)]: one request to the parsing
    service. *)
Definition parser_load_data (parser : LlamaParse) (pdf_file_path : string)
  : St (failure + list Document) :=
  sent_before ← St.read calls;
  St.sent (ParseCall parser pdf_file_path);;
  mret (load_data sent_before parser pdf_file_path).

(** The [LlamaParse] object the function builds with the key. *)
Definition parser (key : string) : LlamaParse :=
  {| api_key := key;
     result_type := "markdown";
     language := "it";
     use_vendor_multimodal_model := true;
     vendor_multimodal_model_name := "anthropic-sonnet-3.7" |}.

(** The function under the decorator. *)
Definition process_pdf_llamaparse_body (pdf_file_path : string)
  : St (option string) :=
  key ← St.read LLAMA_CLOUD_API_KEY;
  if String.eqb key "" then
    St.display (st_error "API Key per Llama Cloud non fornita.");;
    mret None
  else
    St.display (st_info "Avvio del parsing del PDF con LlamaParse...");;
    answer ← parser_load_data (parser key) pdf_file_path;
    match answer with
    | inr [] =>
        St.display (st_error
          "Errore: Nessun contenuto parsato restituito da LlamaParse.");;
        mret None
    | inr documents =>
        let parsed_content :=
          fold_left (λ parsed_content doc,
                       parsed_content +:+ (text doc +:+ PyStr.nl))
                    documents "" in
        St.display (st_success "Parsing del PDF completato con successo.");;
        mret (Some parsed_content)
    | inl e =>
        St.display (st_error
          ("Si è verificato un errore durante il parsing con LlamaParse: "
           +:+ failure_str e));;
        mret None
    end.

Definition process_pdf_llamaparse : string → St (option string) :=
  St.cached process_pdf_llamaparse_body.

(** *** [process_md_gpt] *)

Definition item_schema : json :=
  JList [JDict [("alimento", JStr "string"); ("quantita", JStr "string")]].

Definition pasto_schema : json :=
  JDict [("principale", item_schema); ("alternative", item_schema)].

Definition json_schema : json :=
  JDict [("giorni",
          JList [JDict [("giorno", JStr "string");
                        ("colazione", pasto_schema);
                        ("spuntino_mattina", pasto_schema);
                        ("pranzo", pasto_schema);
                        ("spuntino_pomeriggio", pasto_schema);
                        ("cena", pasto_schema)]]);
         ("note/consigli", JList [JStr "string"])].

(** The double quote. *)
Definition dq : string := String "034"%char EmptyString.

Definition prompt (markdown_content : string) : string :=
  PyStr.nl +:+
  PyStr.join PyStr.nl
    ["    Analizza il seguente piano alimentare in formato markdown ed estrai le informazioni in formato JSON strutturato.";
     "";
     "    CONTENUTO DEL PIANO ALIMENTARE:";
     "    " +:+ markdown_content;
     "";
     "    ISTRUZIONI:";
     "    1. Estrai i pasti per ogni giorno della settimana (lunedì-domenica)";
     "    2. Per ogni pasto, identifica:";
     "       - Alimenti principali con le loro quantità";
     "       - Alternative (quando presenti) con le loro quantità";
     "    3. Estrai i consigli/note generici del nutrizionista";
     "    4. Se un pasto è indicato come " +:+ dq +:+ "PASTO LIBERO" +:+ dq +:+ ", includi questa informazione come alimento principale";
     "    5. Se il piano alimentare descrive una struttura di pasti generica, questa deve essere replicata per ogni giorno della settimana";
     "    6. Se per un pasto (es. spuntino_mattina) non ci sono informazioni nel documento, lascia le liste " +:+ dq +:+ "principale" +:+ dq +:+ " e " +:+ dq +:+ "alternative" +:+ dq +:+ " vuote per quel pasto. Non omettere la chiave del pasto.";
     "    7. Assicurati che ogni giorno da lunedì a domenica sia presente nell'output JSON. Se il documento non specifica pasti per un giorno, quel giorno dovrebbe comunque apparire con i campi dei pasti vuoti o con indicazioni di riposo/libero se presenti.";
     "";
     "    FORMATO JSON RICHIESTO:";
     "    " +:+ json_dumps json_schema;
     "";
     "    IMPORTANTE:";
     "    - Restituisci **esattamente** il JSON, senza testo introduttivo o conclusivo.";
     "    - NON includere alcun commento, spiegazione o intestazione. Solo JSON valido."]
  +:+ PyStr.nl +:+ "    ".

Definition gpt_model : string := "gpt-4o-mini".

Definition system_content : string :=
  "Sei un assistente specializzato nell'estrazione strutturata di dati da piani alimentari. Restituisci sempre e solo JSON valido secondo lo schema fornito.".

Definition request (markdown_content : string) : ChatRequest :=
  {| model := gpt_model;
     messages := [("system", system_content);
                  ("user", prompt markdown_content)];
     temperature := 0;
     max_tokens := 8000;
     response_format := [("type", "json_object")] |}.

(** [client.chat.completions.create(...)]: one request to the language
    model. *)
Definition create (key : string) (req : ChatRequest)
  : St (failure + ChatCompletion) :=
  sent_before ← St.read calls;
  St.sent (ChatCall key req);;
  mret (chat_completions_create sent_before key req).

(** The handler of [json.JSONDecodeError]; [json_response_content] is
    [None] when the name is not bound yet. *)
Definition except_JSONDecodeError (msg : string)
    (json_response_content : option string) : St json :=
  St.display (st_error
    ("Errore nel parsing del JSON dalla risposta di GPT: " +:+ msg));;
  St.display (st_text "Risposta ricevuta (potrebbe essere troncata):");;
  St.display (st_code (default "Nessuna risposta per JSONDecodeError"
                               json_response_content));;
  mret JNull.

(** The handler of [Exception]. *)
Definition except_Exception (msg : string) : St json :=
  St.display (st_error
    ("Errore durante la chiamata a " +:+ gpt_model +:+ ": " +:+ msg));;
  mret JNull.

Definition except (e : failure) (json_response_content : option string)
  : St json :=
  match e with
  | JSONDecodeError msg => except_JSONDecodeError msg json_response_content
  | OtherException msg => except_Exception msg
  end.

(** [None], the result of every failing path, is [JNull]. *)
Definition process_md_gpt (markdown_content : option string) : St json :=
  key ← St.read OPENAI_API_KEY;
  if String.eqb key "" then
    St.display (st_error "API Key per OpenAI non fornita.");;
    mret JNull
  else
    match markdown_content with
    | None | Some EmptyString =>
        St.display (st_warning "Nessun contenuto markdown da processare.");;
        mret JNull
    | Some markdown_content =>
        St.display (st_info
          ("Processing del markdown con " +:+ gpt_model +:+ "..."));;
        answer ← create key (request markdown_content);
        match answer with
        | inl e => except e None
        | inr response =>
            match choices response with
            | [] => except (OtherException "list index out of range") None
            | None :: _ =>
                except (OtherException
                  "the JSON object must be str, bytes or bytearray, not NoneType")
                  None
            | Some json_response_content :: _ =>
                match json_loads json_response_content with
                | inr meal_plan_json =>
                    St.display (st_success
                      "Estrazione JSON completata con successo.");;
                    mret meal_plan_json
                | inl e => except e (Some json_response_content)
                end
            end
        end
    end.

End Orchestrator.

(** The text of the segments, each followed by a line feed. *)
Definition followed_by_nl (documents : list Document) : string :=
  PyStr.join "" (map (λ doc, text doc +:+ PyStr.nl) documents).

(** ** Days that lack data *)

(** A list field of a meal that is absent or holds the empty list. *)
Definition missing_or_empty (field : option json) : bool :=
  match field with
  | None | Some (JList []) => true
  | Some _ => false
  end.

(** The meal [pasto_key] of a day has no data: the key is absent, or its
    two lists are missing or empty. *)
Definition no_data (giorno : dict json) (pasto_key : string) : bool :=
  match Py.lookup pasto_key giorno with
  | None => true
  | Some (JDict pasto) =>
      missing_or_empty (Py.lookup "principale" pasto) &&
      missing_or_empty (Py.lookup "alternative" pasto)
  | Some _ => false
  end.

(** What is printed for the field [k] of a food item: its value, or
    [missing] when the item has no such key. *)
Definition field_or `{Builtins} (item : dict json) (k missing : string)
  : string :=
  match Py.lookup k item with
  | Some v => Py.format v
  | None => missing
  end.

(** The inputs [json_to_text] answers with its diagnostic: [None], and a
    dict without the key [giorni]. *)
Inductive lacks_giorni : json → Prop :=
| lacks_None : lacks_giorni JNull
| lacks_key (d : dict json) :
    Py.lookup "giorni" d = None → lacks_giorni (JDict d).

(** ** Sample values *)

Module Sample.

Definition empty_slot : MealSlot := {| principale := []; alternative := [] |}.

Definition empty_plan : MealPlan := {| giorni := []; note_consigli := [] |}.

(** One day, Monday, with oatmeal for breakfast and nothing else. *)
Definition monday : DayPlan :=
  {| giorno := "Monday";
     colazione := {| principale := [{| alimento := "Oatmeal";
                                       quantita := "50g" |}];
                     alternative := [] |};
     spuntino_mattina := empty_slot;
     pranzo := empty_slot;
     spuntino_pomeriggio := empty_slot;
     cena := empty_slot |}.

Definition monday_plan : MealPlan :=
  {| giorni := [monday]; note_consigli := [] |}.

(** A lunch with no primary item and one alternative. *)
Definition free_lunch : MealSlot :=
  {| principale := [];
     alternative := [{| alimento := "Free meal"; quantita := "-" |}] |}.

Definition free_day : DayPlan :=
  {| giorno := "Sunday";
     colazione := empty_slot;
     spuntino_mattina := empty_slot;
     pranzo := free_lunch;
     spuntino_pomeriggio := empty_slot;
     cena := empty_slot |}.

Definition free_plan : MealPlan :=
  {| giorni := [free_day]; note_consigli := [] |}.

(** A day whose only key is its label. *)
Definition bare_day : dict json := [("giorno", JStr "Monday")].

(** A food item without a quantity. *)
Definition unquantified : dict json := [("alimento", JStr "Tea")].

(** A parsing service that returns one segment, a language model whose
    answer is not JSON, and a [json.loads] that rejects it. *)
Definition services : Services := {|
  load_data := λ _ _ _, inr [{| text := "# Piano" |}];
  chat_completions_create := λ _ _ _,
    inr {| choices := [Some "Ecco il piano: {"] |};
  json_loads := λ _,
    inl (JSONDecodeError "Expecting value: line 1 column 1 (char 0)");
  json_dumps := λ _, "{}";
|}.

(** A fresh session without keys, and one with both keys. *)
Definition no_keys : World :=
  {| LLAMA_CLOUD_API_KEY := "";
     OPENAI_API_KEY := "";
     elements := [];
     calls := [];
     cache_data := ∅ |}.

Definition with_keys : World :=
  {| LLAMA_CLOUD_API_KEY := "llx-key";
     OPENAI_API_KEY := "sk-key";
     elements := [];
     calls := [];
     cache_data := ∅ |}.

(** A session without keys whose memo table holds the result of an
    earlier parse of [/tmp/piano.pdf]. *)
Definition memoised : World :=
  {| LLAMA_CLOUD_API_KEY := "";
     OPENAI_API_KEY := "";
     elements := [];
     calls := [];
     cache_data :=
       {[ "/tmp/piano.pdf" :=
            (Some ("# Piano" +:+ PyStr.nl),
             [st_info "Avvio del parsing del PDF con LlamaParse...";
              st_success "Parsing del PDF completato con successo."]) ]} |}.

End Sample.

(** ** The notes table *)

(** A frame built from one column: with the default integer index when
    the column is a list, and with the keys of the column as index when
    it is a dict. *)
Inductive frame :=
| RangeFrame (df : DataFrame)
| LabelFrame (index : list string) (df : DataFrame).

(** What stops the script: an exception of the reshaping functions, or
    the [ValueError] of pandas. *)
Inductive crash :=
| PyError (e : exn)
| ValueError.

(** [pandas.DataFrame({c: v})]: one row per element of a list, one row per
    key of a dict, and [None] where pandas raises [ValueError] because
    [v] is a scalar.  The cells hold the elements as they are given. *)
Definition column_frame (c : string) (v : json) : option frame :=
  match v with
  | JList l =>
      Some (RangeFrame {| columns := [c]; values := map (λ x, [x]) l |})
  | JDict d =>
      Some (LabelFrame (map fst d)
              {| columns := [c]; values := map (λ kv, [snd kv]) d |})
  | _ => None
  end.

Definition get_notes (json_output : json) : crash + frame :=
  match Py.get json_output "note/consigli" (JList []) with
  | Raise e => inl (PyError e)
  | Ok consigli =>
      match column_frame "note/consigli" consigli with
      | Some notes_df => inr notes_df
      | None => inl ValueError
      end
  end.

(** ** The script

    The block of the script that runs on every interaction, from the
    test of [uploaded_file] to the end of its [else]. *)

(** What the script puts on the page: the elements of the functions, and
    the calls of its own. *)
#[local] Unset Elimination Schemes.
Inductive widget :=
| st_element (e : element)
| st_markdown (body : string)
| st_subheader (body : string)
| st_spinner (text : string)
| st_expander (label : string) (expanded : bool) (inside : list widget)
| st_dataframe (data : frame) (use_container_width : bool)
| st_text_area (label value : string) (height : Z).
#[local] Set Elimination Schemes.

(** The state of a run of the script: the world of the orchestration
    functions, the files on disk with their content, the two entries of
    [st.session_state] ([None] when the key is not set) and the page. *)
Record Session := {
  world : World;
  files : gmap string string;
  session_markdown_content : option (option string);
  session_meal_plan_json : option json;
  page : list widget;
}.

(** The name [tempfile.NamedTemporaryFile(delete=False, suffix=".pdf")]
    picks, given the files that exist. *)
Class Platform := {
  NamedTemporaryFile : gmap string string → string;
}.

Definition Shell (A : Type) : Type := Session → (crash + A) * Session.

#[global] Instance Shell_ret : MRet Shell := λ A a s, (inr a, s).
#[global] Instance Shell_bind : MBind Shell := λ A B k m s,
  match m s with
  | (inr a, s') => k a s'
  | (inl c, s') => (inl c, s')
  end.

Module Shell.

Definition read {A} (f : Session → A) : Shell A := λ s, (inr (f s), s).

Definition show (wd : widget) : Shell unit := λ s,
  (inr tt, {| world := world s;
              files := files s;
              session_markdown_content := session_markdown_content s;
              session_meal_plan_json := session_meal_plan_json s;
              page := page s ++ [wd] |}).

(** A call of an orchestration function: the elements it shows go on the
    page. *)
Definition call {A} (m : St A) : Shell A := λ s,
  let (a, w') := m (world s) in
  (inr a, {| world := w';
             files := files s;
             session_markdown_content := session_markdown_content s;
             session_meal_plan_json := session_meal_plan_json s;
             page := page s ++
               map st_element (drop (length (elements (world s)))
                                    (elements w')) |}).

(** A call of a reshaping function: its exception stops the script. *)
Definition lift {A} (r : result A) : Shell A := λ s,
  (match r with
   | Ok a => inr a
   | Raise e => inl (PyError e)
   end, s).

(** A call of [get_notes]: its exception stops the script too. *)
Definition outcome {A} (r : crash + A) : Shell A := λ s, (r, s).

Definition set_markdown_content (v : option string) : Shell unit := λ s,
  (inr tt, {| world := world s;
              files := files s;
              session_markdown_content := Some v;
              session_meal_plan_json := session_meal_plan_json s;
              page := page s |}).

Definition set_meal_plan_json (v : json) : Shell unit := λ s,
  (inr tt, {| world := world s;
              files := files s;
              session_markdown_content := session_markdown_content s;
              session_meal_plan_json := Some v;
              page := page s |}).

(** [with tempfile.NamedTemporaryFile(...) as tmp_file:
    tmp_file.write(content)], and the name of the file. *)
Definition write_temporary `{Platform} (content : string) : Shell string :=
  λ s,
  let name := NamedTemporaryFile (files s) in
  (inr name, {| world := world s;
                files := <[name := content]> (files s);
                session_markdown_content := session_markdown_content s;
                session_meal_plan_json := session_meal_plan_json s;
                page := page s |}).

(** [if os.path.exists(path): os.remove(path)] *)
Definition remove_if_exists (path : string) : Shell unit := λ s,
  (inr tt, {| world := world s;
              files := match files s !! path with
                       | Some _ => delete path (files s)
                       | None => files s
                       end;
              session_markdown_content := session_markdown_content s;
              session_meal_plan_json := session_meal_plan_json s;
              page := page s |}).

End Shell.

Section Script.
Context `{Builtins} `{Services} `{Platform}.

(** The first stage: the markdown of the file, parsed only when the
    session holds none. *)
Definition parsing_stage (pdf_file_path_for_parser : string)
  : Shell (option string) :=
  Shell.show (st_markdown "---");;
  Shell.show (st_subheader "1. Parsing del PDF");;
  Shell.show (st_spinner "Attendere prego: parsing in corso...");;
  held ← Shell.read session_markdown_content;
  match held with
  | Some markdown_content => mret markdown_content
  | None =>
      markdown_content ←
        Shell.call (process_pdf_llamaparse pdf_file_path_for_parser);
      Shell.set_markdown_content markdown_content;;
      mret markdown_content
  end.

(** The second stage: the structured plan, extracted only when the
    session holds none. *)
Definition extraction_stage (markdown_content : string) : Shell json :=
  Shell.show
    (st_expander "Visualizza contenuto Markdown estratto (grezzo)" false
       [st_markdown ("```markdown" +:+ PyStr.nl +:+ markdown_content +:+
                     PyStr.nl +:+ "```")]);;
  Shell.show (st_markdown "---");;
  Shell.show (st_subheader "2. Estrazione strutturata del Piano Alimentare");;
  Shell.show (st_spinner "Attendere prego: estrazione in corso...");;
  held ← Shell.read session_meal_plan_json;
  match held with
  | Some meal_plan_json => mret meal_plan_json
  | None =>
      meal_plan_json ← Shell.call (process_md_gpt (Some markdown_content));
      Shell.set_meal_plan_json meal_plan_json;;
      mret meal_plan_json
  end.

(** The third stage: the two tables and the text of a plan. *)
Definition display_stage (meal_plan_json : json) : Shell unit :=
  Shell.show (st_subheader "2.1. Piano Alimentare Settimanale");;
  weekly_plan_df ← Shell.lift (get_weekly_plan meal_plan_json);
  Shell.show (st_dataframe (RangeFrame weekly_plan_df) true);;
  Shell.show (st_subheader "2.2. Note e Consigli");;
  notes_df ← Shell.outcome (get_notes meal_plan_json);
  Shell.show (st_dataframe notes_df true);;
  Shell.show (st_markdown
    "Puoi copiare i dati delle tabelle in Excel o Google Sheets.");;
  Shell.show (st_markdown "---");;
  Shell.show (st_subheader "3. Estrazione testuale del Piano Alimentare");;
  json_text_output ← Shell.lift (json_to_text meal_plan_json);
  Shell.show (st_text_area "Testo del Piano Alimentare" json_text_output 400);;
  Shell.show (st_element (st_info
    "Per copiare il testo, selezionalo e usa Ctrl+C (o Cmd+C su Mac).")).

(** [bool(markdown_content)] *)
Definition nonempty (markdown_content : option string) : option string :=
  match markdown_content with
  | None | Some EmptyString => None
  | Some s => Some s
  end.

(** What follows the first stage: the second and the third stage when
    there is markdown, and the error when there is none. *)
Definition result_stage (markdown_content : option string) : Shell unit :=
  match nonempty markdown_content with
  | Some markdown_content =>
      meal_plan_json ← extraction_stage markdown_content;
      if Py.truthy meal_plan_json then display_stage meal_plan_json
      else
        Shell.show (st_element (st_error
          "Non è stato possibile generare il JSON strutturato dal markdown."))
  | None =>
      Shell.show (st_element (st_error
        "Non è stato possibile parsare il PDF."))
  end.

Definition upload_block (uploaded_file : option string) : Shell unit :=
  match uploaded_file with
  | None =>
      Shell.show (st_element (st_info
        "In attesa del caricamento di un file PDF."))
  | Some content =>
      llama_key ← Shell.read (λ s, LLAMA_CLOUD_API_KEY (world s));
      openai_key ← Shell.read (λ s, OPENAI_API_KEY (world s));
      if String.eqb llama_key "" || String.eqb openai_key "" then
        Shell.show (st_element (st_error
          "Per favore, inserisci le API key nella sidebar per procedere."))
      else
        pdf_file_path_for_parser ← Shell.write_temporary content;
        markdown_content ← parsing_stage pdf_file_path_for_parser;
        Shell.remove_if_exists pdf_file_path_for_parser;;
        result_stage markdown_content
  end.

End Script.

(** What the third stage puts on the page when the three views are
    built: the weekly table, the notes table and the text. *)
Definition displayed (weekly_plan_df : DataFrame) (notes_df : frame)
    (json_text_output : string) : list widget :=
  [st_subheader "2.1. Piano Alimentare Settimanale";
   st_dataframe (RangeFrame weekly_plan_df) true;
   st_subheader "2.2. Note e Consigli";
   st_dataframe notes_df true;
   st_markdown "Puoi copiare i dati delle tabelle in Excel o Google Sheets.";
   st_markdown "---";
   st_subheader "3. Estrazione testuale del Piano Alimentare";
   st_text_area "Testo del Piano Alimentare" json_text_output 400;
   st_element (st_info
     "Per copiare il testo, selezionalo e usa Ctrl+C (o Cmd+C su Mac).")].

(** The segments the working parsing service of the scenarios returns. *)
Definition documents_of_first_run : list Document := [{| text := "# Piano" |}].

(** [isinstance(v, dict)] *)
Definition is_dict (v : json) : bool :=
  match v with
  | JDict _ => true
  | _ => false
  end.

(** ** Scenarios *)

Module Scenario.

(** Services that answer with nothing: no segment, no choice. *)
Definition silent : Services := {|
  load_data := λ _ _ _, inr [];
  chat_completions_create := λ _ _ _, inr {| choices := [] |};
  json_loads := λ _, inl (JSONDecodeError "Expecting value");
  json_dumps := λ _, "{}";
|}.

(** Services that cannot be reached. *)
Definition unreachable : Services := {|
  load_data := λ _ _ _, inl (OtherException "Connection error.");
  chat_completions_create := λ _ _ _,
    inl (OtherException "Connection error.");
  json_loads := λ _, inl (JSONDecodeError "Expecting value");
  json_dumps := λ _, "{}";
|}.

(** Services that work: one segment, and an answer that parses to the
    plan of Monday. *)
Definition working : Services := {|
  load_data := λ _ _ _, inr [{| text := "# Piano" |}];
  chat_completions_create := λ _ _ _, inr {| choices := [Some "{...}"] |};
  json_loads := λ _, inr (Schema.plan_json Sample.monday_plan);
  json_dumps := λ _, "{}";
|}.

Definition platform : Platform := {|
  NamedTemporaryFile := λ _, "/tmp/tmpq1w2e3.pdf";
|}.

(** The float [nan]. *)
Definition nan : json := JNum (NFloat S754_nan).

(** A language model that answers [NaN], with the [json.loads] of
    Python on that text: it accepts the constants [NaN], [Infinity] and
    [-Infinity], which are not in the JSON grammar, and returns the
    float. *)
Definition answers_NaN : Services := {|
  load_data := λ _ _ _, inr [{| text := "# Piano" |}];
  chat_completions_create := λ _ _ _, inr {| choices := [Some "NaN"] |};
  json_loads := λ raw,
    if String.eqb raw "NaN" then inr nan
    else inl (JSONDecodeError "Expecting value: line 1 column 1 (char 0)");
  json_dumps := λ _, "{}";
|}.

(** A state in which the keys are set, after a call made without them
    was memoised. *)
Definition keys_set_later : World :=
  {| LLAMA_CLOUD_API_KEY := "llx-key";
     OPENAI_API_KEY := "sk-key";
     elements := [];
     calls := [];
     cache_data :=
       cache_data (@process_pdf_llamaparse working "/tmp/piano.pdf"
                     Sample.no_keys).2 |}.

(** The first run of a session, with and without the keys. *)
Definition first_run : Session :=
  {| world := Sample.with_keys;
     files := ∅;
     session_markdown_content := None;
     session_meal_plan_json := None;
     page := [] |}.

Definition first_run_no_keys : Session :=
  {| world := Sample.no_keys;
     files := ∅;
     session_markdown_content := None;
     session_meal_plan_json := None;
     page := [] |}.

(** A later run of a session whose parse failed. *)
Definition after_failed_parse : Session :=
  {| world := Sample.with_keys;
     files := ∅;
     session_markdown_content := Some None;
     session_meal_plan_json := None;
     page := [] |}.

(** A later run of a session that holds the markdown and the value
    [held] as its plan. *)
Definition holding (held : json) : Session :=
  {| world := Sample.with_keys;
     files := ∅;
     session_markdown_content := Some (Some ("# Piano" +:+ PyStr.nl));
     session_meal_plan_json := Some held;
     page := [] |}.

End Scenario.

(** ** Plans with gaps

    Plans in which data is left out the way the renderers allow for: a
    food item may lack its name or its quantity, a meal may lack either
    list, and a day may lack any meal.  What is left out is an absent
    key of the Python value. *)

Record LooseItem := {
  item_alimento : option string;
  item_quantita : option string;
}.

Record LooseSlot := {
  slot_principale : option (list LooseItem);
  slot_alternative : option (list LooseItem);
}.

Record LooseDay := {
  day_giorno : string;
  day_colazione : option LooseSlot;
  day_spuntino_mattina : option LooseSlot;
  day_pranzo : option LooseSlot;
  day_spuntino_pomeriggio : option LooseSlot;
  day_cena : option LooseSlot;
}.

Record LoosePlan := {
  plan_giorni : list LooseDay;
  plan_note : list string;
}.

Module Loose.

(** The entry of a key that is there, and no entry for one that is
    not. *)
Definition entry {A} (k : string) (f : A → json) (o : option A) : dict json :=
  match o with
  | Some a => [(k, f a)]
  | None => []
  end.

Definition item_json (i : LooseItem) : json :=
  JDict (entry "alimento" JStr (item_alimento i) ++
         entry "quantita" JStr (item_quantita i)).

Definition items_json (l : list LooseItem) : json := JList (map item_json l).

Definition slot_json (s : LooseSlot) : json :=
  JDict (entry "principale" items_json (slot_principale s) ++
         entry "alternative" items_json (slot_alternative s)).

Definition day_json (d : LooseDay) : json :=
  JDict (("giorno", JStr (day_giorno d)) ::
         entry "colazione" slot_json (day_colazione d) ++
         entry "spuntino_mattina" slot_json (day_spuntino_mattina d) ++
         entry "pranzo" slot_json (day_pranzo d) ++
         entry "spuntino_pomeriggio" slot_json (day_spuntino_pomeriggio d) ++
         entry "cena" slot_json (day_cena d)).

Definition plan_json (p : LoosePlan) : json :=
  JDict [("giorni", JList (map day_json (plan_giorni p)));
         ("note/consigli", JList (map JStr (plan_note p)))].

Definition slot (d : LooseDay) (p : pasto) : option LooseSlot :=
  match p with
  | Colazione => day_colazione d
  | SpuntinoMattina => day_spuntino_mattina d
  | Pranzo => day_pranzo d
  | SpuntinoPomeriggio => day_spuntino_pomeriggio d
  | Cena => day_cena d
  end.

(** The value [giorno.get(pasto_key, {})] finds: the meal, or the empty
    dict when the day has no such key. *)
Definition slot_value (d : LooseDay) (p : pasto) : json :=
  from_option slot_json (JDict []) (slot d p).

(** The primary items of a meal of a day: none when the meal or the list
    is left out. *)
Definition principale (d : LooseDay) (p : pasto) : list LooseItem :=
  match slot d p with
  | Some s => default [] (slot_principale s)
  | None => []
  end.

Definition alternative (d : LooseDay) (p : pasto) : list LooseItem :=
  match slot d p with
  | Some s => default [] (slot_alternative s)
  | None => []
  end.

(** The meal has no data: it is left out, or each of its lists is left
    out or empty. *)
Definition has_no_data (d : LooseDay) (p : pasto) : bool :=
  match principale d p, alternative d p with
  | [], [] => true
  | _, _ => false
  end.

(** The report and the cells in closed form. *)
Definition item_text (i : LooseItem) : string :=
  "    • " +:+ default "N/A" (item_alimento i) +:+ ": " +:+
  default "N/A" (item_quantita i).

Definition item_cell (i : LooseItem) : string :=
  default "" (item_alimento i) +:+ " (" +:+ default "" (item_quantita i) +:+
  ")".

Definition pasto_lines (d : LooseDay) (p : pasto) : list string :=
  Spec.pasto_header p ::
  match principale d p with
  | [] => [Spec.no_data]
  | items => "  - Principale:" :: map item_text items
  end ++
  match alternative d p with
  | [] => []
  | items => "  - Alternative:" :: map item_text items
  end.

Definition giorno_lines (d : LooseDay) : list string :=
  ("Giorno: " +:+ day_giorno d) ::
  concat (map (pasto_lines d) pasti) ++ [Spec.separator].

Definition report_lines (plan : LoosePlan) : list string :=
  concat (map giorno_lines (plan_giorni plan)) ++
  Spec.note_lines (plan_note plan).

Definition cell_lines (d : LooseDay) (p : pasto) : list string :=
  map item_cell (principale d p) ++
  match alternative d p with
  | [] => []
  | items => ["Alternative: " +:+ PyStr.join ", " (map item_cell items)]
  end.

Definition row_cells (d : LooseDay) : list json :=
  JStr (day_giorno d) ::
  map (λ p, JStr (PyStr.join PyStr.nl (cell_lines d p))) pasti.

(** The row [get_weekly_plan] builds for the day. *)
Definition row_of (d : LooseDay) : dict json :=
  ("giorno", JStr (day_giorno d)) ::
  map (λ p, (pasto_key p, JStr (PyStr.join PyStr.nl (cell_lines d p)))) pasti.

(** A day of which only the label is known, and a breakfast whose one
    item has a name and no quantity. *)
Definition only_label : LooseDay :=
  {| day_giorno := "Monday";
     day_colazione := None;
     day_spuntino_mattina := None;
     day_pranzo := None;
     day_spuntino_pomeriggio := None;
     day_cena := None |}.

Definition tea : LooseItem :=
  {| item_alimento := Some "Tea"; item_quantita := None |}.

Definition tea_day : LooseDay :=
  {| day_giorno := "Tuesday";
     day_colazione := Some {| slot_principale := Some [tea];
                              slot_alternative := None |};
     day_spuntino_mattina := None;
     day_pranzo := Some {| slot_principale := Some [];
                           slot_alternative := Some [] |};
     day_spuntino_pomeriggio := None;
     day_cena := None |}.

Definition two_days : LoosePlan :=
  {| plan_giorni := [only_label; tea_day]; plan_note := [] |}.

End Loose.

(** ** JSON texts *)

Definition is_whitespace (c : ascii) : bool :=
  let n := Ascii.nat_of_ascii c in
  (n =? 32)%nat || (n =? 9)%nat || (n =? 10)%nat || (n =? 13)%nat.

Definition starts_a_value (c : ascii) : bool :=
  let n := Ascii.nat_of_ascii c in
  (n =? 123)%nat || (n =? 91)%nat || (n =? 34)%nat || (n =? 45)%nat ||
  ((48 <=? n)%nat && (n <=? 57)%nat) ||
  (n =? 116)%nat || (n =? 102)%nat || (n =? 110)%nat.

(** What every JSON text of the grammar has: after white space it begins
    with a brace, a bracket, a double quote, a minus sign, a digit, or
    the first letter of [true], [false] or [null].  A text for which
    this is [false] is not valid JSON. *)
Fixpoint may_be_json (s : string) : bool :=
  match s with
  | EmptyString => false
  | String c s' => if is_whitespace c then may_be_json s' else starts_a_value c
  end.

(** ** Facts about the loops *)

Lemma bind_Ok {A B} (a : A) (k : A → result B) : (Ok a ≫= k) = k a.
Proof. reflexivity. Qed.

Lemma bind_inv {A B} (r : result A) (k : A → result B) (b : B) :
  r ≫= k = Ok b → ∃ a, r = Ok a ∧ k a = Ok b.
Proof. destruct r as [a|e]; [eauto | discriminate]. Qed.

Lemma lookup_set_eq {V} (d : dict V) (k : string) (v : V) :
  Py.lookup k (Py.set d k v) = Some v.
Proof.
  induction d as [|[k' v'] d IH]; simpl.
  - by rewrite String.eqb_refl.
  - destruct (String.eqb k' k) eqn:E; simpl.
    + by rewrite String.eqb_refl.
    + by rewrite E.
Qed.

Lemma lookup_set_ne {V} (d : dict V) (k k' : string) (v : V) :
  k ≠ k' → Py.lookup k' (Py.set d k v) = Py.lookup k' d.
Proof.
  intros Hne. induction d as [|[k0 v0] d IH]; simpl.
  - destruct (String.eqb k k') eqn:E; [|done].
    by apply String.eqb_eq in E.
  - destruct (String.eqb k0 k) eqn:E; simpl.
    + apply String.eqb_eq in E as ->.
      destruct (String.eqb k k') eqn:E'; [|done].
      by apply String.eqb_eq in E'.
    + by rewrite IH.
Qed.

(** ** The renderers on a plan of the schema *)

Section OnSchema.
Context `{Builtins}.
Import Schema.

Lemma text_items_encoded (l : list FoodItem) (out : list string) :
  text_items (JList (map item_json l)) out
  = Ok (out ++ map Spec.item_text l).
Proof.
  unfold text_items. simpl Py.iter. rewrite bind_Ok.
  revert out. induction l as [|i l IH]; intros out.
  - simpl. by rewrite app_nil_r.
  - change (for_each (map item_json (i :: l)) _ out)
      with (for_each (map item_json l)
              (λ item out, line ← text_item item; mret (out ++ [line]))
              (out ++ [Spec.item_text i])).
    rewrite IH. by rewrite <- app_assoc.
Qed.

Lemma iter_list (l : list json) : Py.iter (JList l) = Ok l.
Proof. reflexivity. Qed.

Lemma truthy_nil {A} (f : A → json) : Py.truthy (JList (map f [])) = false.
Proof. reflexivity. Qed.

Lemma truthy_cons {A} (f : A → json) (x : A) (l : list A) :
  Py.truthy (JList (map f (x :: l))) = true.
Proof. reflexivity. Qed.

Lemma text_pasto_encoded (d : DayPlan) (p : pasto) (out : list string) :
  text_pasto (day_json d) (pasto_key p) out
  = Ok (out ++ Spec.pasto_lines p (slot d p)).
Proof.
  unfold text_pasto, Spec.pasto_lines.
  assert (Py.get (day_json d) (pasto_key p) (JDict [])
          = Ok (slot_json (slot d p))) as -> by (by destruct p).
  rewrite bind_Ok.
  change (Py.get (slot_json (slot d p)) "principale" (JList []))
    with (Ok (A:=json) (JList (map item_json (principale (slot d p))))).
  change (Py.get (slot_json (slot d p)) "alternative" (JList []))
    with (Ok (A:=json) (JList (map item_json (alternative (slot d p))))).
  rewrite !bind_Ok. fold (Spec.pasto_header p).
  destruct (principale (slot d p)) as [|i1 l1],
           (alternative (slot d p)) as [|i2 l2];
    rewrite ?truthy_nil, ?truthy_cons;
    rewrite ?text_items_encoded, ?bind_Ok;
    rewrite ?truthy_nil, ?truthy_cons, ?text_items_encoded;
    unfold mret, result_ret; f_equal;
    rewrite <- ?app_assoc, ?app_nil_r; reflexivity.
Qed.

Lemma text_giorno_encoded (d : DayPlan) (out : list string) :
  text_giorno (day_json d) out = Ok (out ++ Spec.giorno_lines d).
Proof.
  unfold text_giorno, Spec.giorno_lines.
  change (Py.get (day_json d) "giorno" (JStr "Non specificato"))
    with (Ok (A:=json) (JStr (giorno d))).
  rewrite bind_Ok.
  change pasto_keys with (map pasto_key pasti).
  assert (∀ out, for_each (map pasto_key pasti) (text_pasto (day_json d)) out
          = Ok (out ++ concat (map (λ p, Spec.pasto_lines p (slot d p)) pasti)))
    as ->.
  { intros o. generalize pasti. intros ps. revert o.
    induction ps as [|p ps IH]; intros o; simpl.
    - by rewrite app_nil_r.
    - rewrite text_pasto_encoded, bind_Ok, IH. by rewrite <- app_assoc. }
  rewrite bind_Ok. unfold mret, result_ret. f_equal.
  rewrite <- !app_assoc. reflexivity.
Qed.

Lemma text_note_encoded (plan : MealPlan) (out : list string) :
  text_note (plan_json plan) out
  = Ok (out ++ Spec.note_lines (note_consigli plan)).
Proof.
  unfold text_note.
  change (Py.contains "note/consigli" (plan_json plan))
    with (Ok (A:=bool) true).
  rewrite bind_Ok.
  change (Py.getitem (plan_json plan) "note/consigli")
    with (Ok (A:=json) (JList (map JStr (note_consigli plan)))).
  rewrite bind_Ok. unfold Spec.note_lines.
  destruct (note_consigli plan) as [|n ns].
  - simpl. by rewrite app_nil_r.
  - rewrite truthy_cons, iter_list, bind_Ok.
    generalize (n :: ns). intros l.
    assert (∀ o, for_each (map JStr l)
              (λ nota out, mret (out ++ ["• " +:+ Py.format nota])) o
            = Ok (o ++ map (λ nota, "• " +:+ nota) l)) as Hl.
    { induction l as [|x l IH]; intros o; simpl.
      - by rewrite app_nil_r.
      - rewrite IH. by rewrite <- app_assoc. }
    rewrite Hl. by rewrite <- app_assoc.
Qed.

(** On a plan of the schema [json_to_text] returns the report of the
    specification. *)
Lemma json_to_text_encoded (plan : MealPlan) :
  json_to_text (plan_json plan) = Ok (Spec.report plan).
Proof.
  unfold json_to_text, Spec.report.
  change (Py.truthy (plan_json plan)) with true.
  change (Py.contains "giorni" (plan_json plan)) with (Ok (A:=bool) true).
  cbn [negb]. rewrite bind_Ok. cbn [negb].
  change (Py.get (plan_json plan) "giorni" (JList []))
    with (Ok (A:=json) (JList (map day_json (giorni plan)))).
  rewrite bind_Ok. simpl Py.iter. rewrite bind_Ok.
  assert (∀ o, for_each (map day_json (giorni plan)) text_giorno o
          = Ok (o ++ concat (map Spec.giorno_lines (giorni plan)))) as ->.
  { induction (giorni plan) as [|d ds IH]; intros o; simpl.
    - by rewrite app_nil_r.
    - rewrite text_giorno_encoded, bind_Ok, IH. by rewrite <- app_assoc. }
  rewrite bind_Ok, text_note_encoded, bind_Ok. reflexivity.
Qed.

End OnSchema.

Section TableOnSchema.
Context `{Builtins}.
Import Schema.

Lemma cell_items_encoded (l : list FoodItem) :
  cell_items (JList (map item_json l)) = Ok (map Spec.item_cell l).
Proof.
  unfold cell_items. rewrite iter_list, bind_Ok.
  enough (∀ acc, for_each (map item_json l)
            (λ item acc, s ← cell_item item; mret (acc ++ [s])) acc
          = Ok (acc ++ map Spec.item_cell l)) as Hl by apply Hl.
  induction l as [|i l IH]; intros acc.
  - simpl. by rewrite app_nil_r.
  - change (for_each (map item_json (i :: l)) _ acc)
      with (for_each (map item_json l)
              (λ item acc, s ← cell_item item; mret (acc ++ [s]))
              (acc ++ [Spec.item_cell i])).
    rewrite IH. by rewrite <- app_assoc.
Qed.

Lemma weekly_pasto_encoded (d : DayPlan) (p : pasto) (row : dict json) :
  weekly_pasto (day_json d) (pasto_key p) row
  = Ok (Py.set row (pasto_key p) (JStr (Spec.cell_text (slot d p)))).
Proof.
  unfold weekly_pasto, Spec.cell_text.
  assert (Py.get (day_json d) (pasto_key p) (JDict [])
          = Ok (slot_json (slot d p))) as -> by (by destruct p).
  rewrite bind_Ok.
  change (Py.get (slot_json (slot d p)) "principale" (JList []))
    with (Ok (A:=json) (JList (map item_json (principale (slot d p))))).
  change (Py.get (slot_json (slot d p)) "alternative" JNull)
    with (Ok (A:=json) (JList (map item_json (alternative (slot d p))))).
  change (Py.getitem (slot_json (slot d p)) "alternative")
    with (Ok (A:=json) (JList (map item_json (alternative (slot d p))))).
  rewrite bind_Ok, cell_items_encoded, !bind_Ok.
  destruct (alternative (slot d p)) as [|i2 l2].
  - rewrite truthy_nil, app_nil_r. cbv beta iota.
    unfold mret, result_ret. rewrite bind_Ok.
    by destruct (principale (slot d p)).
  - rewrite truthy_cons, cell_items_encoded. cbv beta iota.
    unfold mret, result_ret. rewrite !bind_Ok.
    by destruct (principale (slot d p)).
Qed.

Lemma weekly_row_encoded (d : DayPlan) :
  weekly_row (day_json d) = Ok (row_of d).
Proof.
  unfold weekly_row.
  change (Py.get (day_json d) "giorno" (JStr ""))
    with (Ok (A:=json) (JStr (giorno d))).
  rewrite bind_Ok. change pasto_keys with (map pasto_key pasti).
  unfold pasti. cbn [map for_each].
  do 5 (rewrite weekly_pasto_encoded, bind_Ok). reflexivity.
Qed.

Lemma get_weekly_plan_encoded (plan : MealPlan) :
  get_weekly_plan (plan_json plan)
  = Ok (Pd.DataFrame_of (map row_of (giorni plan))).
Proof.
  unfold get_weekly_plan.
  change (Py.get (plan_json plan) "giorni" (JList []))
    with (Ok (A:=json) (JList (map day_json (giorni plan)))).
  rewrite bind_Ok, iter_list, bind_Ok.
  assert (∀ rows, for_each (map day_json (giorni plan))
            (λ giorno rows,
               giorno_row ← weekly_row giorno; mret (rows ++ [giorno_row]))
            rows
          = Ok (rows ++ map row_of (giorni plan))) as ->.
  { induction (giorni plan) as [|d ds IH]; intros rows; simpl.
    - by rewrite app_nil_r.
    - rewrite weekly_row_encoded, bind_Ok. unfold mret, result_ret.
      rewrite bind_Ok, IH. by rewrite <- app_assoc. }
  reflexivity.
Qed.

End TableOnSchema.

(** The frame pandas builds from the rows of the days. *)
Lemma DataFrame_of_rows (days : list DayPlan) :
  Pd.DataFrame_of (map row_of days)
  = {| columns := match days with [] => [] | _ => weekly_columns end;
       values := map Spec.row_cells days |}.
Proof.
  assert (∀ ds, fold_left
            (λ cols row, fold_left Pd.add_key (map fst row) cols)
            (map row_of ds) weekly_columns = weekly_columns) as Hcols.
  { induction ds as [|d ds IH]; [done|]. simpl. apply IH. }
  unfold Pd.DataFrame_of. destruct days as [|d ds].
  - reflexivity.
  - change (fold_left _ (map row_of (d :: ds)) [])
      with (fold_left
              (λ cols row, fold_left Pd.add_key (map fst row) cols)
              (map row_of ds) weekly_columns).
    rewrite Hcols. f_equal. rewrite map_map. reflexivity.
Qed.

(** ** The weekly table *)

(** C1, as the code has it: for every plan of the schema the weekly table
    has one row per day, the rows hold the days in their order (label
    first, then the five meal cells), and its columns are the day label
    and the five meals when the plan has a day and none at all when it
    has no day. *)
Theorem weekly_table_shape `{Builtins} (plan : MealPlan) :
  ∃ df, get_weekly_plan (Schema.plan_json plan) = Ok df
      ∧ values df = map Spec.row_cells (giorni plan)
      ∧ length (values df) = length (giorni plan)
      ∧ columns df = match giorni plan with
                     | [] => []
                     | _ => ["giorno"; "colazione"; "spuntino_mattina";
                             "pranzo"; "spuntino_pomeriggio"; "cena"]
                     end
      ∧ Pd.shape df = (length (giorni plan),
                       match giorni plan with [] => 0 | _ => 6 end).
Proof.
  eexists. split; [apply get_weekly_plan_encoded|].
  rewrite DataFrame_of_rows. unfold Pd.shape. simpl.
  rewrite length_map. by destruct (giorni plan).
Qed.

(** C1 as stated fails on the plan without days: its table has no
    column, not six. *)
Lemma weekly_table_empty_plan :
  ∃ df, @get_weekly_plan sample_builtins (Schema.plan_json Sample.empty_plan)
        = Ok df
      ∧ Pd.shape df = (0, 0)
      ∧ length (columns df) ≠ 6.
Proof. eexists. split; [reflexivity|]. split; [reflexivity|]. simpl. lia. Qed.

(** C2, with the literal of the source: for every plan of the schema, the
    cell of meal [p] in the row of day [i] is the primary items, each as
    [name (quantity)], joined by line feeds and followed, only when there
    are alternatives, by one last line [Alternative: ] with the
    alternatives joined by a comma and a space.  A meal with both lists
    empty gives the empty string, and a lunch with no primary item and
    the one alternative [Free meal], [-] gives
    [Alternative: Free meal (-)]. *)
Theorem weekly_table_cell `{Builtins} (plan : MealPlan) (i : nat)
    (d : DayPlan) (p : pasto) :
  giorni plan !! i = Some d →
  ∃ df, get_weekly_plan (Schema.plan_json plan) = Ok df
      ∧ Pd.at_ df i (pasto_key p) = Some (JStr (Spec.cell_text (slot d p)))
      ∧ Spec.cell_text (slot d p)
        = PyStr.join PyStr.nl
            (map Spec.item_cell (principale (slot d p)) ++
             match alternative (slot d p) with
             | [] => []
             | items =>
                 ["Alternative: " +:+
                  PyStr.join ", " (map Spec.item_cell items)]
             end)
      ∧ (slot d p = Sample.empty_slot → Spec.cell_text (slot d p) = "")
      ∧ (slot d p = Sample.free_lunch →
         Spec.cell_text (slot d p) = "Alternative: Free meal (-)").
Proof.
  intros Hd. eexists. split; [apply get_weekly_plan_encoded|].
  split; [|split; [reflexivity|split; intros ->; reflexivity]].
  rewrite DataFrame_of_rows. unfold Pd.at_. cbn [values columns].
  rewrite list_lookup_fmap, Hd. cbn [fmap option_fmap option_map mbind option_bind].
  destruct (giorni plan) as [|d0 ds]; [by rewrite lookup_nil in Hd|].
  by destruct p.
Qed.

Lemma weekly_table_cell_free_lunch :
  giorni Sample.free_plan !! 0 = Some Sample.free_day
  ∧ ∃ df, @get_weekly_plan sample_builtins (Schema.plan_json Sample.free_plan)
          = Ok df
        ∧ Pd.at_ df 0 "pranzo" = Some (JStr "Alternative: Free meal (-)").
Proof.
  split; [reflexivity|].
  destruct (@weekly_table_cell sample_builtins Sample.free_plan 0
              Sample.free_day Pranzo eq_refl) as (df & Hdf & Hcell & _).
  exists df. split; [exact Hdf | exact Hcell].
Defined.

(** C2 as stated fails on that lunch: the last line starts with
    [Alternative: ], the literal of the source, not with
    [Alternatives: ]. *)
Lemma weekly_table_cell_not_Alternatives :
  ∃ df, @get_weekly_plan sample_builtins (Schema.plan_json Sample.free_plan)
        = Ok df
      ∧ Pd.at_ df 0 "pranzo" = Some (JStr "Alternative: Free meal (-)")
      ∧ Pd.at_ df 0 "pranzo" ≠ Some (JStr "Alternatives: Free meal (-)").
Proof.
  eexists. split; [reflexivity|]. split; [reflexivity|]. discriminate.
Qed.

(** ** The text report *)

(** C3: on [None] and on a dict without the key [giorni], [json_to_text]
    returns its diagnostic and raises nothing. *)
Theorem json_to_text_invalid `{Builtins} (json_data : json) :
  lacks_giorni json_data →
  json_to_text json_data = Ok "Dati JSON non validi o mancanti.".
Proof.
  intros [|d Hd]; [reflexivity|].
  unfold json_to_text. destruct d as [|kv d]; [reflexivity|].
  cbn [Py.truthy negb Py.contains]. rewrite bind_Ok, Hd. reflexivity.
Qed.

Lemma json_to_text_invalid_notes_only :
  lacks_giorni (JDict [("note/consigli", JList [JStr "Bere acqua"])])
  ∧ @json_to_text sample_builtins
      (JDict [("note/consigli", JList [JStr "Bere acqua"])])
    = Ok "Dati JSON non validi o mancanti.".
Proof.
  assert (lacks_giorni (JDict [("note/consigli", JList [JStr "Bere acqua"])]))
    as Hl by (apply lacks_key; reflexivity).
  split; [exact Hl|].
  exact (@json_to_text_invalid sample_builtins _ Hl).
Defined.

(** Outside these inputs the guard itself can raise: a number and [True]
    are truthy and are not containers, and a string that contains
    [giorni] passes the guard and has no [get]. *)
Lemma json_to_text_not_a_dict `{Builtins} :
  json_to_text (JNum (NInt 42)) = Raise TypeError
  ∧ json_to_text (JBool true) = Raise TypeError
  ∧ json_to_text (JStr "giorni") = Raise AttributeError.
Proof. split; [|split]; reflexivity. Qed.

(** C4: on every plan of the schema [json_to_text] returns a text, and
    the text is a function of the plan alone: two calls give the same
    report, whatever the built-ins print for values that are not
    strings, and the function neither reads nor changes the session. *)
Theorem json_to_text_deterministic (B1 B2 : Builtins) (plan1 plan2 : MealPlan) :
  plan1 = plan2 →
  ∃ text, @json_to_text B1 (Schema.plan_json plan1) = Ok text
        ∧ @json_to_text B2 (Schema.plan_json plan2) = Ok text
        ∧ text = Spec.report plan1.
Proof.
  intros <-. exists (Spec.report plan1).
  by rewrite !json_to_text_encoded.
Qed.

Lemma json_to_text_deterministic_monday :
  Sample.monday_plan = Sample.monday_plan
  ∧ ∃ text, @json_to_text sample_builtins (Schema.plan_json Sample.monday_plan)
            = Ok text
          ∧ @json_to_text sample_builtins (Schema.plan_json Sample.monday_plan)
            = Ok text
          ∧ text = Spec.report Sample.monday_plan.
Proof.
  split; [reflexivity|].
  exact (json_to_text_deterministic sample_builtins sample_builtins
           Sample.monday_plan Sample.monday_plan eq_refl).
Defined.

(** C5: for the plan with the one day Monday, oatmeal (50g) for breakfast
    and nothing else, the report is the day header, the breakfast block
    with the line of the oatmeal, the no-data line under each of the four
    other meals and the separator; the weekly table has one row, whose
    breakfast cell is [Oatmeal (50g)] and whose four other meal cells are
    empty. *)
Theorem monday_round_trip `{Builtins} :
  json_to_text (Schema.plan_json Sample.monday_plan)
  = Ok (PyStr.join PyStr.nl
          ["Giorno: Monday";
           PyStr.nl +:+ "Colazione:";
           "  - Principale:";
           "    • Oatmeal: 50g";
           PyStr.nl +:+ "Spuntino mattina:";
           "  - Principale: Nessun dato";
           PyStr.nl +:+ "Pranzo:";
           "  - Principale: Nessun dato";
           PyStr.nl +:+ "Spuntino pomeriggio:";
           "  - Principale: Nessun dato";
           PyStr.nl +:+ "Cena:";
           "  - Principale: Nessun dato";
           PyStr.nl +:+ "------------------------------" +:+ PyStr.nl])
  ∧ get_weekly_plan (Schema.plan_json Sample.monday_plan)
    = Ok {| columns := ["giorno"; "colazione"; "spuntino_mattina"; "pranzo";
                        "spuntino_pomeriggio"; "cena"];
            values := [[JStr "Monday"; JStr "Oatmeal (50g)"; JStr "";
                        JStr ""; JStr ""; JStr ""]] |}.
Proof.
  rewrite json_to_text_encoded, get_weekly_plan_encoded. split; reflexivity.
Qed.

(** ** Missing data *)

Lemma missing_or_empty_get (pasto : dict json) (k : string) :
  missing_or_empty (Py.lookup k pasto) = true →
  from_option id (JList []) (Py.lookup k pasto) = JList [].
Proof.
  destruct (Py.lookup k pasto) as [[| | | |[|]|]|]; simpl; congruence.
Qed.

Lemma missing_or_empty_falsy (pasto : dict json) (k : string) :
  missing_or_empty (Py.lookup k pasto) = true →
  Py.truthy (from_option id JNull (Py.lookup k pasto)) = false.
Proof.
  destruct (Py.lookup k pasto) as [[| | | |[|]|]|]; simpl; congruence.
Qed.

Section NoData.
Context `{Builtins}.

Lemma text_pasto_no_data (giorno : dict json) (k : string)
    (output : list string) :
  no_data giorno k = true →
  text_pasto (JDict giorno) k output
  = Ok (output ++
        [PyStr.nl +:+ PyStr.capitalize (PyStr.replace "_" " " k) +:+ ":";
         "  - Principale: Nessun dato"]).
Proof.
  unfold no_data, text_pasto. cbn [Py.get].
  destruct (Py.lookup k giorno) as [[| | | | |pasto]|]; try discriminate.
  - intros [Hp Ha]%andb_true_iff. cbn [from_option id].
    rewrite bind_Ok. cbn [Py.get].
    rewrite (missing_or_empty_get _ _ Hp), (missing_or_empty_get _ _ Ha).
    rewrite !bind_Ok. cbn [Py.truthy]. unfold mret, result_ret.
    rewrite bind_Ok. by rewrite <- app_assoc.
  - intros _. cbn [from_option id]. rewrite bind_Ok.
    cbn [Py.get Py.lookup from_option id]. rewrite !bind_Ok.
    cbn [Py.truthy]. unfold mret, result_ret. rewrite bind_Ok.
    by rewrite <- app_assoc.
Qed.

Lemma weekly_pasto_no_data (giorno : dict json) (k : string)
    (giorno_row : dict json) :
  no_data giorno k = true →
  weekly_pasto (JDict giorno) k giorno_row
  = Ok (Py.set giorno_row k (JStr "")).
Proof.
  unfold no_data, weekly_pasto. cbn [Py.get].
  destruct (Py.lookup k giorno) as [[| | | | |pasto]|]; try discriminate.
  - intros [Hp Ha]%andb_true_iff. cbn [from_option id].
    rewrite bind_Ok. cbn [Py.get].
    rewrite bind_Ok, (missing_or_empty_get _ _ Hp).
    change (cell_items (JList [])) with (Ok (A:=list string) []).
    rewrite !bind_Ok, (missing_or_empty_falsy _ _ Ha).
    reflexivity.
  - intros _. reflexivity.
Qed.

(** Each meal of the loop sets its own key of the row. *)
Lemma weekly_pasto_sets (giorno : json) (k : string)
    (row row' : dict json) :
  weekly_pasto giorno k row = Ok row' → ∃ v, row' = Py.set row k (JStr v).
Proof.
  unfold weekly_pasto. intros Hrow.
  repeat (apply bind_inv in Hrow as (? & _ & Hrow)).
  injection Hrow as <-. eauto.
Qed.

End NoData.

Lemma for_each_extends {A B} (l : list A)
    (body : A → list B → result (list B)) (out out' : list B) :
  (∀ x o o', body x o = Ok o' → ∃ more, o' = o ++ more) →
  for_each l body out = Ok out' → ∃ more, out' = out ++ more.
Proof.
  intros Hbody. revert out.
  induction l as [|x l IH]; simpl; intros out Hrun.
  - injection Hrun as <-. exists []. by rewrite app_nil_r.
  - apply bind_inv in Hrun as (mid & Hx & Hrun).
    apply Hbody in Hx as [m1 ->]. apply IH in Hrun as [m2 ->].
    exists (m1 ++ m2). by rewrite app_assoc.
Qed.

(** A loop over [l1 ++ x :: l2] that returns went through [x]. *)
Lemma for_each_middle {A S} (l1 l2 : list A) (x : A)
    (body : A → S → result S) (s s' : S) :
  for_each (l1 ++ x :: l2) body s = Ok s' →
  ∃ s1 s2, for_each l1 body s = Ok s1 ∧ body x s1 = Ok s2
         ∧ for_each l2 body s2 = Ok s'.
Proof.
  revert s. induction l1 as [|y l1 IH]; simpl; intros s Hrun.
  - apply bind_inv in Hrun as (s2 & Hx & Hrun). eauto.
  - apply bind_inv in Hrun as (sy & Hy & Hrun).
    apply IH in Hrun as (s1 & s2 & H1 & Hx & H2).
    exists s1, s2. by rewrite Hy, bind_Ok.
Qed.

Ltac not_in_keys :=
  let Hin := fresh "Hin" in
  intros Hin;
  repeat (apply elem_of_cons in Hin as [Hin|Hin]; [discriminate|]);
  by apply elem_of_nil in Hin.

Lemma pasto_keys_split (p : pasto) :
  ∃ l1 l2, pasto_keys = l1 ++ pasto_key p :: l2
         ∧ pasto_key p ∉ l2.
Proof.
  destruct p; simpl.
  - exists [], ["spuntino_mattina"; "pranzo"; "spuntino_pomeriggio"; "cena"].
    split; [done|]. by not_in_keys.
  - exists ["colazione"], ["pranzo"; "spuntino_pomeriggio"; "cena"].
    split; [done|]. by not_in_keys.
  - exists ["colazione"; "spuntino_mattina"], ["spuntino_pomeriggio"; "cena"].
    split; [done|]. by not_in_keys.
  - exists ["colazione"; "spuntino_mattina"; "pranzo"], ["cena"].
    split; [done|]. by not_in_keys.
  - exists ["colazione"; "spuntino_mattina"; "pranzo"; "spuntino_pomeriggio"], [].
    split; [done|]. apply not_elem_of_nil.
Qed.

Section NoDataDay.
Context `{Builtins}.

Lemma text_items_extends (items : json) (o o' : list string) :
  text_items items o = Ok o' → ∃ more, o' = o ++ more.
Proof.
  unfold text_items. intros Hrun.
  apply bind_inv in Hrun as (l & _ & Hrun).
  apply for_each_extends in Hrun; [done|].
  intros x a a' Hx. apply bind_inv in Hx as (line & _ & Hx).
  injection Hx as <-. eauto.
Qed.

Lemma text_pasto_extends (giorno_data : json) (k : string)
    (o o' : list string) :
  text_pasto giorno_data k o = Ok o' → ∃ more, o' = o ++ more.
Proof.
  unfold text_pasto. intros Hrun.
  apply bind_inv in Hrun as (pasto_data & _ & Hrun).
  apply bind_inv in Hrun as (pr & _ & Hrun).
  apply bind_inv in Hrun as (al & _ & Hrun).
  apply bind_inv in Hrun as (o1 & H1 & Hrun).
  assert (∃ m1, o1 = o ++ m1) as [m1 ->].
  { destruct (Py.truthy pr).
    - apply text_items_extends in H1 as [m ->].
      eexists. by rewrite <- !app_assoc.
    - injection H1 as <-. eexists. by rewrite <- !app_assoc. }
  destruct (Py.truthy al).
  - apply text_items_extends in Hrun as [m ->].
    eexists. by rewrite <- !app_assoc.
  - injection Hrun as <-. eauto.
Qed.

(** A day whose report is produced shows the header and the no-data
    line of each meal that has no data. *)
Lemma text_giorno_no_data (giorno : dict json) (p : pasto)
    (output out' : list string) :
  no_data giorno (pasto_key p) = true →
  text_giorno (JDict giorno) output = Ok out' →
  ∃ before after,
    out' = before ++
           [Spec.pasto_header p; "  - Principale: Nessun dato"] ++ after.
Proof.
  intros Hp. unfold text_giorno. intros Hrun.
  apply bind_inv in Hrun as (label & _ & Hrun).
  apply bind_inv in Hrun as (o & Hloop & Hrun).
  injection Hrun as <-.
  destruct (pasto_keys_split p) as (l1 & l2 & Hkeys & _).
  rewrite Hkeys in Hloop.
  apply for_each_middle in Hloop as (s1 & s2 & _ & Hx & H2).
  rewrite (text_pasto_no_data _ _ _ Hp) in Hx. injection Hx as <-.
  apply for_each_extends in H2 as [m ->];
    [|intros ? ? ?; apply text_pasto_extends].
  exists s1. eexists. rewrite <- !app_assoc. reflexivity.
Qed.

Lemma for_each_weekly_keeps (giorno : json) (k : string) (v : json)
    (l : list string) (row row' : dict json) :
  k ∉ l → Py.lookup k row = Some v →
  for_each l (weekly_pasto giorno) row = Ok row' →
  Py.lookup k row' = Some v.
Proof.
  revert row. induction l as [|k' l IH]; simpl; intros row Hk Hv Hrun.
  - by injection Hrun as <-.
  - apply not_elem_of_cons in Hk as [Hne Hk].
    apply bind_inv in Hrun as (mid & Hmid & Hrun).
    apply weekly_pasto_sets in Hmid as [v' ->].
    eapply IH; [exact Hk| |exact Hrun]. rewrite lookup_set_ne; done.
Qed.

(** A day whose row is built holds the empty string under the key of
    each meal that has no data. *)
Lemma weekly_row_no_data (giorno : dict json) (p : pasto)
    (row : dict json) :
  no_data giorno (pasto_key p) = true →
  weekly_row (JDict giorno) = Ok row →
  Py.lookup (pasto_key p) row = Some (JStr "").
Proof.
  intros Hp. unfold weekly_row. intros Hrun.
  apply bind_inv in Hrun as (label & _ & Hloop).
  destruct (pasto_keys_split p) as (l1 & l2 & Hkeys & Hl2).
  rewrite Hkeys in Hloop.
  apply for_each_middle in Hloop as (s1 & s2 & _ & Hx & H2).
  rewrite (weekly_pasto_no_data _ _ _ Hp) in Hx. injection Hx as <-.
  eapply for_each_weekly_keeps; [exact Hl2| |exact H2].
  apply lookup_set_eq.
Qed.

End NoDataDay.

(** For every day, as a dict of any content, and every meal of it that
    has no data (the key is absent, or its two lists are missing or
    empty), the text renderer appends the header of the meal and then its
    no-data line, and the table projector sets the key of the meal in the
    row to the empty string; neither raises at that meal.  So the report
    of the day, when there is one, shows the two lines, and the row of the
    day, when there is one, holds the empty cell. *)
Lemma no_data_in_a_day_of_any_content `{Builtins} (giorno : dict json) (p : pasto)
    (output : list string) (giorno_row : dict json) :
  no_data giorno (pasto_key p) = true →
  text_pasto (JDict giorno) (pasto_key p) output
  = Ok (output ++ [Spec.pasto_header p; "  - Principale: Nessun dato"])
  ∧ weekly_pasto (JDict giorno) (pasto_key p) giorno_row
    = Ok (Py.set giorno_row (pasto_key p) (JStr ""))
  ∧ Py.lookup (pasto_key p) (Py.set giorno_row (pasto_key p) (JStr ""))
    = Some (JStr "")
  ∧ (∀ out', text_giorno (JDict giorno) output = Ok out' →
       ∃ before after,
         out' = before ++
                [Spec.pasto_header p; "  - Principale: Nessun dato"] ++ after)
  ∧ (∀ row, weekly_row (JDict giorno) = Ok row →
       Py.lookup (pasto_key p) row = Some (JStr "")).
Proof.
  intros Hp. split; [by apply text_pasto_no_data|].
  split; [by apply weekly_pasto_no_data|].
  split; [apply lookup_set_eq|].
  split.
  - intros out'. by apply text_giorno_no_data.
  - intros row. by apply weekly_row_no_data.
Qed.

(** A meal or a list that is [null] is not a meal without data: the
    projector raises on it. *)
Lemma null_is_not_missing `{Builtins} (row : dict json) :
  weekly_pasto (JDict [("pranzo", JNull)]) "pranzo" row = Raise AttributeError
  ∧ weekly_pasto (JDict [("pranzo", JDict [("principale", JNull)])])
      "pranzo" row
    = Raise TypeError.
Proof. split; reflexivity. Qed.

(** For every food item, as a dict of any content, both item functions
    succeed; the line of the report prints [N/A] for an absent name and
    for an absent quantity, and the cell of the table prints the empty
    string for them. *)
Lemma item_of_any_content `{Builtins} (item : dict json) :
  text_item (JDict item)
  = Ok ("    • " +:+ field_or item "alimento" "N/A" +:+ ": " +:+
        field_or item "quantita" "N/A")
  ∧ cell_item (JDict item)
    = Ok (field_or item "alimento" "" +:+ " (" +:+
          field_or item "quantita" "" +:+ ")")
  ∧ (Py.lookup "alimento" item = None →
     field_or item "alimento" "N/A" = "N/A"
     ∧ field_or item "alimento" "" = "")
  ∧ (Py.lookup "quantita" item = None →
     field_or item "quantita" "N/A" = "N/A"
     ∧ field_or item "quantita" "" = "").
Proof.
  unfold text_item, cell_item, field_or. cbn [Py.get].
  rewrite !bind_Ok. unfold mret, result_ret.
  split; [|split; [|split; intros ->; done]].
  - by destruct (Py.lookup "alimento" item), (Py.lookup "quantita" item).
  - by destruct (Py.lookup "alimento" item), (Py.lookup "quantita" item).
Qed.

(** ** The orchestration functions *)

Lemma append_cons (a : ascii) (s t : string) :
  String a s +:+ t = String a (s +:+ t).
Proof. reflexivity. Qed.

Lemma append_assoc (s t u : string) : (s +:+ t) +:+ u = s +:+ t +:+ u.
Proof.
  induction s as [|a s IH]; [reflexivity|].
  by rewrite !append_cons, IH.
Qed.

Lemma append_nil_r (s : string) : s +:+ "" = s.
Proof. induction s as [|a s IH]; [done|]. by rewrite append_cons, IH. Qed.

Lemma concat_empty_cons (x : string) (xs : list string) :
  String.concat "" (x :: xs) = x +:+ String.concat "" xs.
Proof. destruct xs; [by rewrite append_nil_r | reflexivity]. Qed.

Lemma parsed_content_fold (documents : list Document) (acc : string) :
  fold_left (λ parsed_content doc, parsed_content +:+ (text doc +:+ PyStr.nl))
            documents acc
  = acc +:+ followed_by_nl documents.
Proof.
  unfold followed_by_nl, PyStr.join. revert acc.
  induction documents as [|doc docs IH]; intros acc.
  - by rewrite append_nil_r.
  - cbn [fold_left map]. by rewrite IH, append_assoc, concat_empty_cons.
Qed.

(** With a segment in the list, that is the segments joined by line
    feeds, and one more line feed at the end. *)
Lemma followed_by_nl_join (documents : list Document) :
  documents ≠ [] →
  followed_by_nl documents
  = PyStr.join PyStr.nl (map text documents) +:+ PyStr.nl.
Proof.
  unfold followed_by_nl, PyStr.join.
  induction documents as [|doc docs IH]; [done|]. intros _.
  cbn [map]. rewrite concat_empty_cons.
  destruct docs as [|doc' docs]; [by rewrite append_nil_r|].
  rewrite IH by done.
  change (String.concat PyStr.nl (text doc :: map text (doc' :: docs)))
    with (text doc +:+ PyStr.nl +:+
          String.concat PyStr.nl (map text (doc' :: docs))).
  by rewrite !append_assoc.
Qed.

Ltac st_step :=
  unfold mbind, St_bind, mret, St_ret, St.read, St.display, St.sent,
    St.replay, St.memoise; cbn beta iota.

Section OrchestratorFacts.
Context `{Services}.

(** Without its key the function under the decorator reports the
    missing key, returns [None] and sends nothing. *)
Lemma body_without_key (pdf_file_path : string) (w : World) :
  LLAMA_CLOUD_API_KEY w = "" →
  process_pdf_llamaparse_body pdf_file_path w
  = (None, {| LLAMA_CLOUD_API_KEY := LLAMA_CLOUD_API_KEY w;
              OPENAI_API_KEY := OPENAI_API_KEY w;
              elements := elements w ++
                [st_error "API Key per Llama Cloud non fornita."];
              calls := calls w;
              cache_data := cache_data w |}).
Proof.
  intros Hkey. unfold process_pdf_llamaparse_body. st_step.
  by destruct (String.eqb_spec (LLAMA_CLOUD_API_KEY w) "").
Qed.

(** The memo table does not touch the log of requests. *)
Lemma cached_hit (f : string → St (option string)) (arg : string)
    (w : World) (value : option string) (shown : list element) :
  cache_data w !! arg = Some (value, shown) →
  St.cached f arg w
  = (value, {| LLAMA_CLOUD_API_KEY := LLAMA_CLOUD_API_KEY w;
               OPENAI_API_KEY := OPENAI_API_KEY w;
               elements := elements w ++ shown;
               calls := calls w;
               cache_data := cache_data w |}).
Proof. intros Hhit. unfold St.cached. st_step. by rewrite Hhit. Qed.

Lemma cached_miss (f : string → St (option string)) (arg : string)
    (w : World) :
  cache_data w !! arg = None →
  St.cached f arg w
  = (let (value, w') := f arg w in
     (value, {| LLAMA_CLOUD_API_KEY := LLAMA_CLOUD_API_KEY w';
                OPENAI_API_KEY := OPENAI_API_KEY w';
                elements := elements w';
                calls := calls w';
                cache_data :=
                  <[arg := (value, drop (length (elements w)) (elements w'))]>
                    (cache_data w') |})).
Proof.
  intros Hmiss. unfold St.cached. st_step. rewrite Hmiss.
  by destruct (f arg w).
Qed.

End OrchestratorFacts.

(** C7, as the code has it: without the key of the language model
    [process_md_gpt] reports the missing key, returns [None] and sends
    nothing.  Without the key of the parsing service
    [process_pdf_llamaparse] sends nothing either, and when the memo
    table of [st.cache_data] has no entry for the path it reports the
    missing key and returns [None]. *)
Theorem missing_credential `{Services} :
  (∀ (w : World) (pdf_file_path : string),
     LLAMA_CLOUD_API_KEY w = "" →
     calls (process_pdf_llamaparse pdf_file_path w).2 = calls w
     ∧ (cache_data w !! pdf_file_path = None →
        (process_pdf_llamaparse pdf_file_path w).1 = None
        ∧ elements (process_pdf_llamaparse pdf_file_path w).2
          = elements w ++ [st_error "API Key per Llama Cloud non fornita."]))
  ∧ (∀ (w : World) (markdown_content : option string),
       OPENAI_API_KEY w = "" →
       (process_md_gpt markdown_content w).1 = JNull
       ∧ elements (process_md_gpt markdown_content w).2
         = elements w ++ [st_error "API Key per OpenAI non fornita."]
       ∧ calls (process_md_gpt markdown_content w).2 = calls w).
Proof.
  split.
  - intros w path Hkey. unfold process_pdf_llamaparse.
    destruct (cache_data w !! path) as [[value shown]|] eqn:Hcache.
    + rewrite (cached_hit _ _ _ _ _ Hcache). split; [done|]. discriminate.
    + rewrite (cached_miss _ _ _ Hcache), (body_without_key _ _ Hkey).
      by split.
  - intros w markdown_content Hkey. unfold process_md_gpt. st_step.
    by destruct (String.eqb_spec (OPENAI_API_KEY w) "").
Qed.

Lemma missing_credential_no_keys :
  LLAMA_CLOUD_API_KEY Sample.no_keys = ""
  ∧ OPENAI_API_KEY Sample.no_keys = ""
  ∧ cache_data Sample.no_keys !! "/tmp/piano.pdf" = None
  ∧ (@process_pdf_llamaparse Sample.services "/tmp/piano.pdf" Sample.no_keys).1
    = None
  ∧ calls (@process_pdf_llamaparse Sample.services "/tmp/piano.pdf"
             Sample.no_keys).2 = []
  ∧ (@process_md_gpt Sample.services (Some "# Piano") Sample.no_keys).1 = JNull
  ∧ calls (@process_md_gpt Sample.services (Some "# Piano") Sample.no_keys).2
    = [].
Proof.
  destruct (@missing_credential Sample.services) as [Hparse Hgpt].
  destruct (Hparse Sample.no_keys "/tmp/piano.pdf" eq_refl) as [Hcalls Hmiss].
  destruct (Hmiss eq_refl) as [Hnone _].
  destruct (Hgpt Sample.no_keys (Some "# Piano") eq_refl)
    as (Hnull & _ & Hcalls').
  split; [reflexivity|]. split; [reflexivity|]. split; [reflexivity|].
  split; [exact Hnone|]. split; [exact Hcalls|].
  split; [exact Hnull | exact Hcalls'].
Defined.

(** C7 as stated fails when the memo table holds a result for the path:
    without the key, [process_pdf_llamaparse] returns the stored markdown
    and no missing-key report. *)
Lemma memoised_result_without_key :
  LLAMA_CLOUD_API_KEY Sample.memoised = ""
  ∧ (@process_pdf_llamaparse Sample.services "/tmp/piano.pdf" Sample.memoised).1
    = Some ("# Piano" +:+ PyStr.nl)
  ∧ (@process_pdf_llamaparse Sample.services "/tmp/piano.pdf" Sample.memoised).1
    ≠ None
  ∧ st_error "API Key per Llama Cloud non fornita."
    ∉ elements (@process_pdf_llamaparse Sample.services "/tmp/piano.pdf"
                  Sample.memoised).2.
Proof.
  split; [reflexivity|]. split; [reflexivity|]. split; [discriminate|].
  unfold process_pdf_llamaparse.
  rewrite (cached_hit _ _ _ (Some ("# Piano" +:+ PyStr.nl))
             [st_info "Avvio del parsing del PDF con LlamaParse...";
              st_success "Parsing del PDF completato con successo."])
    by reflexivity.
  cbn [snd elements Sample.memoised app].
  intros Hin. repeat (apply elem_of_cons in Hin as [Hin|Hin]; [discriminate|]).
  by apply elem_of_nil in Hin.
Qed.

(** C8, as the code has it: when [json.loads] raises [JSONDecodeError]
    on the answer of the language model, [process_md_gpt] returns [None],
    never a structured result, and shows the error and then the raw text
    of the answer. *)
Theorem malformed_response `{Services} (w : World)
    (markdown_content raw msg : string) (others : list (option string)) :
  OPENAI_API_KEY w ≠ "" →
  markdown_content ≠ "" →
  chat_completions_create (calls w) (OPENAI_API_KEY w)
    (request markdown_content)
  = inr {| choices := Some raw :: others |} →
  json_loads raw = inl (JSONDecodeError msg) →
  (process_md_gpt (Some markdown_content) w).1 = JNull
  ∧ elements (process_md_gpt (Some markdown_content) w).2
    = elements w ++
      [st_info "Processing del markdown con gpt-4o-mini...";
       st_error ("Errore nel parsing del JSON dalla risposta di GPT: " +:+ msg);
       st_text "Risposta ricevuta (potrebbe essere troncata):";
       st_code raw]
  ∧ calls (process_md_gpt (Some markdown_content) w).2
    = calls w ++ [ChatCall (OPENAI_API_KEY w) (request markdown_content)].
Proof.
  intros Hkey Hmd Hanswer Hloads. unfold process_md_gpt. st_step.
  destruct (String.eqb_spec (OPENAI_API_KEY w) "") as [|_]; [done|].
  destruct markdown_content as [|c md]; [done|].
  unfold create. st_step. cbn [calls]. rewrite Hanswer. cbn [choices].
  rewrite Hloads. unfold except, except_JSONDecodeError. st_step.
  cbn [fst snd elements calls default]. rewrite <- !app_assoc. done.
Qed.

Lemma malformed_response_sample :
  OPENAI_API_KEY Sample.with_keys ≠ ""
  ∧ "# Piano" ≠ ""
  ∧ (@process_md_gpt Sample.services (Some "# Piano") Sample.with_keys).1
    = JNull
  ∧ st_code "Ecco il piano: {"
    ∈ elements (@process_md_gpt Sample.services (Some "# Piano")
                  Sample.with_keys).2.
Proof.
  assert (OPENAI_API_KEY Sample.with_keys ≠ "") as Hkey by discriminate.
  assert ("# Piano" ≠ "") as Hmd by discriminate.
  destruct (@malformed_response Sample.services Sample.with_keys "# Piano"
              "Ecco il piano: {" "Expecting value: line 1 column 1 (char 0)"
              [] Hkey Hmd eq_refl eq_refl) as (Hnull & Hshown & _).
  split; [exact Hkey|]. split; [exact Hmd|]. split; [exact Hnull|].
  rewrite Hshown. rewrite !elem_of_app, !elem_of_cons. auto 10.
Defined.

(** C9, as the code has it: when the function runs (the key is present
    and the memo table has no entry for the path) and the parsing service
    returns a list of segments that is not empty,
    [process_pdf_llamaparse] sends that one request and returns the texts
    of the segments in their order, each followed by a line feed: the
    texts joined by line feeds, and one more line feed after the last. *)
Theorem parsed_markdown `{Services} (w : World) (pdf_file_path : string)
    (documents : list Document) :
  LLAMA_CLOUD_API_KEY w ≠ "" →
  cache_data w !! pdf_file_path = None →
  documents ≠ [] →
  load_data (calls w) (parser (LLAMA_CLOUD_API_KEY w)) pdf_file_path
  = inr documents →
  (process_pdf_llamaparse pdf_file_path w).1
  = Some (PyStr.join PyStr.nl (map text documents) +:+ PyStr.nl)
  ∧ (process_pdf_llamaparse pdf_file_path w).1
    = Some (followed_by_nl documents)
  ∧ calls (process_pdf_llamaparse pdf_file_path w).2
    = calls w ++ [ParseCall (parser (LLAMA_CLOUD_API_KEY w)) pdf_file_path].
Proof.
  intros Hkey Hmiss Hdocs Hanswer. unfold process_pdf_llamaparse.
  rewrite (cached_miss _ _ _ Hmiss).
  unfold process_pdf_llamaparse_body, parser_load_data. st_step.
  destruct (String.eqb_spec (LLAMA_CLOUD_API_KEY w) "") as [|_]; [done|].
  cbn [calls]. rewrite Hanswer.
  destruct documents as [|doc docs]; [done|].
  cbn [fst snd calls]. rewrite parsed_content_fold.
  change ("" +:+ followed_by_nl (doc :: docs))
    with (followed_by_nl (doc :: docs)).
  by rewrite followed_by_nl_join.
Qed.

Lemma parsed_markdown_sample :
  LLAMA_CLOUD_API_KEY Sample.with_keys ≠ ""
  ∧ cache_data Sample.with_keys !! "/tmp/piano.pdf" = None
  ∧ [{| text := "# Piano" |}] ≠ []
  ∧ (@process_pdf_llamaparse Sample.services "/tmp/piano.pdf"
       Sample.with_keys).1
    = Some ("# Piano" +:+ PyStr.nl).
Proof.
  assert (LLAMA_CLOUD_API_KEY Sample.with_keys ≠ "") as Hkey by discriminate.
  assert ([{| text := "# Piano" |}] ≠ []) as Hdocs by discriminate.
  destruct (@parsed_markdown Sample.services Sample.with_keys "/tmp/piano.pdf"
              [{| text := "# Piano" |}] Hkey eq_refl Hdocs eq_refl)
    as (Htext & _).
  split; [exact Hkey|]. split; [reflexivity|]. split; [exact Hdocs|].
  exact Htext.
Defined.

(** C9 as stated fails already on one segment: the result ends with a
    line feed, so it is not the segments separated by line feeds. *)
Lemma parsed_markdown_trailing_nl :
  @load_data Sample.services (calls Sample.with_keys)
    (parser (LLAMA_CLOUD_API_KEY Sample.with_keys)) "/tmp/piano.pdf"
  = inr [{| text := "# Piano" |}]
  ∧ (@process_pdf_llamaparse Sample.services "/tmp/piano.pdf"
       Sample.with_keys).1
    = Some ("# Piano" +:+ PyStr.nl)
  ∧ (@process_pdf_llamaparse Sample.services "/tmp/piano.pdf"
       Sample.with_keys).1
    ≠ Some (PyStr.join PyStr.nl (map text [{| text := "# Piano" |}])).
Proof.
  split; [reflexivity|]. split; [reflexivity|]. discriminate.
Qed.

(** ** More on the orchestration functions *)

Section OrchestratorMore.
Context `{Services}.

(** Every path of the function under the decorator, at once: what it
    returns, what it shows and what it sends. *)
Lemma body_cases (pdf_file_path : string) (w : World) :
  ∃ value shown sent,
    process_pdf_llamaparse_body pdf_file_path w
    = (value, {| LLAMA_CLOUD_API_KEY := LLAMA_CLOUD_API_KEY w;
                 OPENAI_API_KEY := OPENAI_API_KEY w;
                 elements := elements w ++ shown;
                 calls := calls w ++ sent;
                 cache_data := cache_data w |})
    ∧ (sent = []
       ∨ sent = [ParseCall (parser (LLAMA_CLOUD_API_KEY w)) pdf_file_path])
    ∧ match value with
      | Some parsed_content => parsed_content ≠ ""
      | None => True
      end.
Proof.
  unfold process_pdf_llamaparse_body, parser_load_data. st_step.
  destruct (String.eqb_spec (LLAMA_CLOUD_API_KEY w) "") as [Hkey|Hkey].
  { exists None, [st_error "API Key per Llama Cloud non fornita."], [].
    rewrite app_nil_r. auto. }
  cbn [calls].
  destruct (load_data (calls w) (parser (LLAMA_CLOUD_API_KEY w)) pdf_file_path)
    as [e|[|doc docs]]; eexists _, _, _; cbn [elements calls];
    rewrite <- ?app_assoc; (split; [reflexivity|]); (split; [by right|]);
    try done.
  rewrite parsed_content_fold. unfold followed_by_nl, PyStr.join.
  cbn [map]. rewrite concat_empty_cons.
  change ("" +:+ ?s) with s. destruct (text doc); discriminate.
Qed.

(** After a call the memo table holds the value the call returned. *)
Lemma cached_then_held (pdf_file_path : string) (w : World) :
  ∃ shown,
    cache_data (process_pdf_llamaparse pdf_file_path w).2 !! pdf_file_path
    = Some ((process_pdf_llamaparse pdf_file_path w).1, shown)
    ∧ elements (process_pdf_llamaparse pdf_file_path w).2
      = elements w ++ shown.
Proof.
  unfold process_pdf_llamaparse.
  destruct (cache_data w !! pdf_file_path) as [[value shown]|] eqn:Hcache.
  - rewrite (cached_hit _ _ _ _ _ Hcache). by exists shown.
  - rewrite (cached_miss _ _ _ Hcache).
    destruct (body_cases pdf_file_path w) as (value & shown & sent & -> & _).
    exists shown. cbn [fst snd cache_data elements].
    rewrite lookup_insert_eq, drop_app_length. done.
Qed.

End OrchestratorMore.

(** X1: when the function runs and the parsing service returns no
    segment, [process_pdf_llamaparse] returns [None], says that nothing
    was parsed, and has sent its one request. *)
Theorem empty_result_is_reported `{Services} (w : World)
    (pdf_file_path : string) :
  LLAMA_CLOUD_API_KEY w ≠ "" →
  cache_data w !! pdf_file_path = None →
  load_data (calls w) (parser (LLAMA_CLOUD_API_KEY w)) pdf_file_path = inr [] →
  (process_pdf_llamaparse pdf_file_path w).1 = None
  ∧ elements (process_pdf_llamaparse pdf_file_path w).2
    = elements w ++
      [st_info "Avvio del parsing del PDF con LlamaParse...";
       st_error "Errore: Nessun contenuto parsato restituito da LlamaParse."]
  ∧ calls (process_pdf_llamaparse pdf_file_path w).2
    = calls w ++ [ParseCall (parser (LLAMA_CLOUD_API_KEY w)) pdf_file_path].
Proof.
  intros Hkey Hmiss Hanswer. unfold process_pdf_llamaparse.
  rewrite (cached_miss _ _ _ Hmiss).
  unfold process_pdf_llamaparse_body, parser_load_data. st_step.
  destruct (String.eqb_spec (LLAMA_CLOUD_API_KEY w) "") as [|_]; [done|].
  cbn [calls]. rewrite Hanswer. cbn [fst snd elements calls].
  by rewrite <- app_assoc.
Qed.

Lemma empty_result_is_reported_silent :
  LLAMA_CLOUD_API_KEY Sample.with_keys ≠ ""
  ∧ cache_data Sample.with_keys !! "/tmp/piano.pdf" = None
  ∧ (@process_pdf_llamaparse Scenario.silent "/tmp/piano.pdf"
       Sample.with_keys).1 = None.
Proof.
  assert (LLAMA_CLOUD_API_KEY Sample.with_keys ≠ "") as Hkey by discriminate.
  destruct (@empty_result_is_reported Scenario.silent Sample.with_keys
              "/tmp/piano.pdf" Hkey eq_refl eq_refl) as (Hnone & _).
  split; [exact Hkey|]. split; [reflexivity | exact Hnone].
Defined.

(** X2: when the function runs and the parsing service raises,
    [process_pdf_llamaparse] catches the exception, returns [None] and
    shows the message of the exception; nothing is sent again. *)
Theorem parse_failure_is_reported `{Services} (w : World)
    (pdf_file_path : string) (e : failure) :
  LLAMA_CLOUD_API_KEY w ≠ "" →
  cache_data w !! pdf_file_path = None →
  load_data (calls w) (parser (LLAMA_CLOUD_API_KEY w)) pdf_file_path = inl e →
  (process_pdf_llamaparse pdf_file_path w).1 = None
  ∧ elements (process_pdf_llamaparse pdf_file_path w).2
    = elements w ++
      [st_info "Avvio del parsing del PDF con LlamaParse...";
       st_error
         ("Si è verificato un errore durante il parsing con LlamaParse: "
          +:+ failure_str e)]
  ∧ calls (process_pdf_llamaparse pdf_file_path w).2
    = calls w ++ [ParseCall (parser (LLAMA_CLOUD_API_KEY w)) pdf_file_path].
Proof.
  intros Hkey Hmiss Hanswer. unfold process_pdf_llamaparse.
  rewrite (cached_miss _ _ _ Hmiss).
  unfold process_pdf_llamaparse_body, parser_load_data. st_step.
  destruct (String.eqb_spec (LLAMA_CLOUD_API_KEY w) "") as [|_]; [done|].
  cbn [calls]. rewrite Hanswer. cbn [fst snd elements calls].
  by rewrite <- app_assoc.
Qed.

Lemma parse_failure_is_reported_unreachable :
  LLAMA_CLOUD_API_KEY Sample.with_keys ≠ ""
  ∧ cache_data Sample.with_keys !! "/tmp/piano.pdf" = None
  ∧ (@process_pdf_llamaparse Scenario.unreachable "/tmp/piano.pdf"
       Sample.with_keys).1 = None
  ∧ elements (@process_pdf_llamaparse Scenario.unreachable "/tmp/piano.pdf"
                Sample.with_keys).2
    = [st_info "Avvio del parsing del PDF con LlamaParse...";
       st_error
         "Si è verificato un errore durante il parsing con LlamaParse: Connection error."].
Proof.
  assert (LLAMA_CLOUD_API_KEY Sample.with_keys ≠ "") as Hkey by discriminate.
  destruct (@parse_failure_is_reported Scenario.unreachable Sample.with_keys
              "/tmp/piano.pdf" (OtherException "Connection error.")
              Hkey eq_refl eq_refl) as (Hnone & Hshown & _).
  split; [exact Hkey|]. split; [reflexivity|].
  split; [exact Hnone | exact Hshown].
Defined.

(** X3: a result is memoised, a failure too.  In every later state whose
    memo table still holds the entry of the path, whatever the keys are
    by then, a call with the same path returns the value of the first
    call, shows again what the first call showed, and sends nothing. *)
Theorem second_call_is_memoised `{Services} (w later : World)
    (pdf_file_path : string) :
  cache_data later !! pdf_file_path
  = cache_data (process_pdf_llamaparse pdf_file_path w).2 !! pdf_file_path →
  (process_pdf_llamaparse pdf_file_path later).1
  = (process_pdf_llamaparse pdf_file_path w).1
  ∧ calls (process_pdf_llamaparse pdf_file_path later).2 = calls later
  ∧ ∃ shown,
      elements (process_pdf_llamaparse pdf_file_path w).2
      = elements w ++ shown
      ∧ elements (process_pdf_llamaparse pdf_file_path later).2
        = elements later ++ shown.
Proof.
  intros Hheld.
  destruct (cached_then_held pdf_file_path w) as (shown & Hentry & Hshown).
  rewrite Hentry in Hheld.
  unfold process_pdf_llamaparse at 1 3 5.
  rewrite !(cached_hit _ _ _ _ _ Hheld). cbn [fst snd calls elements].
  split; [done|]. split; [done|]. by exists shown.
Qed.

Lemma second_call_is_memoised_failure :
  cache_data Scenario.keys_set_later !! "/tmp/piano.pdf"
  = cache_data (@process_pdf_llamaparse Scenario.working "/tmp/piano.pdf"
                  Sample.no_keys).2 !! "/tmp/piano.pdf"
  ∧ LLAMA_CLOUD_API_KEY Scenario.keys_set_later = "llx-key"
  ∧ (@process_pdf_llamaparse Scenario.working "/tmp/piano.pdf"
       Scenario.keys_set_later).1 = None
  ∧ calls (@process_pdf_llamaparse Scenario.working "/tmp/piano.pdf"
             Scenario.keys_set_later).2 = [].
Proof.
  destruct (@second_call_is_memoised Scenario.working Sample.no_keys
              Scenario.keys_set_later "/tmp/piano.pdf" eq_refl)
    as (Hvalue & Hcalls & _).
  split; [reflexivity|]. split; [reflexivity|].
  split; [exact Hvalue | exact Hcalls].
Defined.

Ltac md_failed :=
  cbn [choices]; unfold except, except_JSONDecodeError, except_Exception;
  st_step; eexists _, _; cbn [fst snd elements calls];
  rewrite <- ?app_assoc; (split; [reflexivity|]);
  (split; [right; by eexists|by left]).

Section RequestsAndFrame.
Context `{Services}.

(** Every path of [process_md_gpt], at once. *)
Lemma process_md_gpt_cases (markdown_content : option string) (w : World) :
  ∃ shown sent,
    (process_md_gpt markdown_content w).2
    = {| LLAMA_CLOUD_API_KEY := LLAMA_CLOUD_API_KEY w;
         OPENAI_API_KEY := OPENAI_API_KEY w;
         elements := elements w ++ shown;
         calls := calls w ++ sent;
         cache_data := cache_data w |}
    ∧ (sent = []
       ∨ ∃ md, nonempty markdown_content = Some md
             ∧ OPENAI_API_KEY w ≠ ""
             ∧ sent = [ChatCall (OPENAI_API_KEY w) (request md)])
    ∧ ((process_md_gpt markdown_content w).1 = JNull
       ∨ ∃ md raw others,
           nonempty markdown_content = Some md
           ∧ chat_completions_create (calls w) (OPENAI_API_KEY w) (request md)
             = inr {| choices := Some raw :: others |}
           ∧ json_loads raw = inr (process_md_gpt markdown_content w).1).
Proof.
  unfold process_md_gpt. st_step.
  destruct (String.eqb_spec (OPENAI_API_KEY w) "") as [Hkey|Hkey].
  { eexists _, []. cbn [fst snd]. rewrite (app_nil_r (calls w)).
    split; [reflexivity|]. split; by left. }
  destruct markdown_content as [[|c md]|].
  1,3: eexists _, []; cbn [fst snd]; rewrite (app_nil_r (calls w));
    (split; [reflexivity|]); split; by left.
  unfold create. st_step. cbn [calls nonempty].
  destruct (chat_completions_create (calls w) (OPENAI_API_KEY w)
              (request (String c md))) as [e|[[|[raw|] others]]] eqn:Hanswer.
  - destruct e; md_failed.
  - md_failed.
  - cbn [choices].
    destruct (json_loads raw) as [e|meal_plan_json] eqn:Hloads.
    + destruct e; md_failed.
    + st_step. eexists _, _; cbn [fst snd elements calls];
        rewrite <- ?app_assoc; (split; [reflexivity|]).
      split; [right; by eexists|]. right. by exists (String c md), raw, others.
  - md_failed.
Qed.

End RequestsAndFrame.

(** X4: a call sends at most one request, and never a second one after a
    failure: [process_pdf_llamaparse] leaves the log of requests as it is
    or adds the one request for the path, built with the key and the
    fixed options; [process_md_gpt] leaves it as it is or adds the one
    request for its markdown. *)
Theorem at_most_one_request `{Services} (w : World) (pdf_file_path : string)
    (markdown_content : option string) :
  (calls (process_pdf_llamaparse pdf_file_path w).2 = calls w
   ∨ calls (process_pdf_llamaparse pdf_file_path w).2
     = calls w ++
       [ParseCall {| api_key := LLAMA_CLOUD_API_KEY w;
                     result_type := "markdown";
                     language := "it";
                     use_vendor_multimodal_model := true;
                     vendor_multimodal_model_name := "anthropic-sonnet-3.7" |}
                  pdf_file_path])
  ∧ (calls (process_md_gpt markdown_content w).2 = calls w
     ∨ ∃ md, markdown_content = Some md
           ∧ calls (process_md_gpt markdown_content w).2
             = calls w ++ [ChatCall (OPENAI_API_KEY w) (request md)]).
Proof.
  split.
  - unfold process_pdf_llamaparse.
    destruct (cache_data w !! pdf_file_path) as [[value shown]|] eqn:Hcache.
    + rewrite (cached_hit _ _ _ _ _ Hcache). by left.
    + rewrite (cached_miss _ _ _ Hcache).
      destruct (body_cases pdf_file_path w)
        as (value & shown & sent & -> & [-> | ->] & _); cbn [snd calls].
      * left. by rewrite app_nil_r.
      * by right.
  - destruct (process_md_gpt_cases markdown_content w)
      as (shown & sent & -> & [-> | (md & Hmd & _ & ->)] & _); cbn [calls].
    + left. by rewrite app_nil_r.
    + right. exists md. split; [|done].
      by destruct markdown_content as [[|]|]; simplify_eq/=.
Qed.

(** X5: what the two functions leave alone.  Neither changes a key, and
    both only add to the page.  [process_md_gpt] does not touch the memo
    table, and [process_pdf_llamaparse] touches no entry of it but the
    one of its path. *)
Theorem orchestration_frame `{Services} (w : World) (pdf_file_path : string)
    (markdown_content : option string) :
  (LLAMA_CLOUD_API_KEY (process_pdf_llamaparse pdf_file_path w).2
   = LLAMA_CLOUD_API_KEY w
   ∧ OPENAI_API_KEY (process_pdf_llamaparse pdf_file_path w).2
     = OPENAI_API_KEY w
   ∧ (∃ shown, elements (process_pdf_llamaparse pdf_file_path w).2
               = elements w ++ shown)
   ∧ ∀ other, other ≠ pdf_file_path →
       cache_data (process_pdf_llamaparse pdf_file_path w).2 !! other
       = cache_data w !! other)
  ∧ (LLAMA_CLOUD_API_KEY (process_md_gpt markdown_content w).2
     = LLAMA_CLOUD_API_KEY w
     ∧ OPENAI_API_KEY (process_md_gpt markdown_content w).2
       = OPENAI_API_KEY w
     ∧ (∃ shown, elements (process_md_gpt markdown_content w).2
                 = elements w ++ shown)
     ∧ cache_data (process_md_gpt markdown_content w).2 = cache_data w).
Proof.
  split.
  - unfold process_pdf_llamaparse.
    destruct (cache_data w !! pdf_file_path) as [[value shown]|] eqn:Hcache.
    + rewrite (cached_hit _ _ _ _ _ Hcache). cbn [snd].
      split; [done|]. split; [done|]. split; [by exists shown|done].
    + rewrite (cached_miss _ _ _ Hcache).
      destruct (body_cases pdf_file_path w)
        as (value & shown & sent & -> & _); cbn [snd].
      split; [done|]. split; [done|]. split; [by exists shown|].
      intros other Hother. cbn [cache_data]. by rewrite lookup_insert_ne.
  - destruct (process_md_gpt_cases markdown_content w)
      as (shown & sent & -> & _).
    split; [done|]. split; [done|]. split; [by exists shown|done].
Qed.

(** X6: with its key and no markdown ([None] or the empty string)
    [process_md_gpt] warns, returns [None] and sends nothing. *)
Theorem no_markdown_no_request `{Services} (w : World)
    (markdown_content : option string) :
  OPENAI_API_KEY w ≠ "" →
  nonempty markdown_content = None →
  process_md_gpt markdown_content w
  = (JNull, {| LLAMA_CLOUD_API_KEY := LLAMA_CLOUD_API_KEY w;
               OPENAI_API_KEY := OPENAI_API_KEY w;
               elements := elements w ++
                 [st_warning "Nessun contenuto markdown da processare."];
               calls := calls w;
               cache_data := cache_data w |}).
Proof.
  intros Hkey Hmd. unfold process_md_gpt. st_step.
  destruct (String.eqb_spec (OPENAI_API_KEY w) "") as [|_]; [done|].
  by destruct markdown_content as [[|c md]|].
Qed.

Lemma no_markdown_no_request_empty :
  OPENAI_API_KEY Sample.with_keys ≠ ""
  ∧ nonempty (Some "") = None
  ∧ (@process_md_gpt Sample.services (Some "") Sample.with_keys).1 = JNull
  ∧ calls (@process_md_gpt Sample.services (Some "") Sample.with_keys).2 = [].
Proof.
  assert (OPENAI_API_KEY Sample.with_keys ≠ "") as Hkey by discriminate.
  pose proof (@no_markdown_no_request Sample.services Sample.with_keys
                (Some "") Hkey eq_refl) as Hrun.
  split; [exact Hkey|]. split; [reflexivity|].
  split; [exact (f_equal fst Hrun) | exact (f_equal (λ r, calls r.2) Hrun)].
Defined.

(** X7: when the first choice of the answer parses, [process_md_gpt]
    returns the parsed value as it is, whatever JSON value that is, and
    says that the extraction succeeded; it has sent one request. *)
Theorem extraction_returns_parsed_json `{Services} (w : World)
    (markdown_content raw : string) (others : list (option string))
    (meal_plan_json : json) :
  OPENAI_API_KEY w ≠ "" →
  markdown_content ≠ "" →
  chat_completions_create (calls w) (OPENAI_API_KEY w)
    (request markdown_content)
  = inr {| choices := Some raw :: others |} →
  json_loads raw = inr meal_plan_json →
  process_md_gpt (Some markdown_content) w
  = (meal_plan_json,
     {| LLAMA_CLOUD_API_KEY := LLAMA_CLOUD_API_KEY w;
        OPENAI_API_KEY := OPENAI_API_KEY w;
        elements := elements w ++
          [st_info "Processing del markdown con gpt-4o-mini...";
           st_success "Estrazione JSON completata con successo."];
        calls := calls w ++
          [ChatCall (OPENAI_API_KEY w) (request markdown_content)];
        cache_data := cache_data w |}).
Proof.
  intros Hkey Hmd Hanswer Hloads. unfold process_md_gpt. st_step.
  destruct (String.eqb_spec (OPENAI_API_KEY w) "") as [|_]; [done|].
  destruct markdown_content as [|c md]; [done|].
  unfold create. st_step. cbn [calls]. rewrite Hanswer. cbn [choices].
  rewrite Hloads. st_step. cbn [elements calls]. by rewrite <- app_assoc.
Qed.

Lemma extraction_returns_parsed_json_working :
  OPENAI_API_KEY Sample.with_keys ≠ ""
  ∧ "# Piano" ≠ ""
  ∧ (@process_md_gpt Scenario.working (Some "# Piano") Sample.with_keys).1
    = Schema.plan_json Sample.monday_plan.
Proof.
  assert (OPENAI_API_KEY Sample.with_keys ≠ "") as Hkey by discriminate.
  assert ("# Piano" ≠ "") as Hmd by discriminate.
  pose proof (@extraction_returns_parsed_json Scenario.working
                Sample.with_keys "# Piano" "{...}" []
                (Schema.plan_json Sample.monday_plan) Hkey Hmd eq_refl eq_refl)
    as Hrun.
  split; [exact Hkey|]. split; [exact Hmd|]. exact (f_equal fst Hrun).
Defined.

(** X8: [process_md_gpt] never makes up a result: a result that is not
    [None] is what [json.loads] gave for the first choice of the answer
    to the request built from the markdown. *)
Theorem structured_result_was_parsed `{Services} (w : World)
    (markdown_content : option string) :
  (process_md_gpt markdown_content w).1 ≠ JNull →
  ∃ md raw others,
    markdown_content = Some md
    ∧ chat_completions_create (calls w) (OPENAI_API_KEY w) (request md)
      = inr {| choices := Some raw :: others |}
    ∧ json_loads raw = inr (process_md_gpt markdown_content w).1.
Proof.
  intros Hresult.
  destruct (process_md_gpt_cases markdown_content w)
    as (_ & _ & _ & _ & [Hnull | (md & raw & others & Hmd & Hanswer & Hloads)]);
    [done|].
  exists md, raw, others. split; [|done].
  by destruct markdown_content as [[|]|]; simplify_eq/=.
Qed.

Lemma structured_result_was_parsed_working :
  (@process_md_gpt Scenario.working (Some "# Piano") Sample.with_keys).1
  ≠ JNull
  ∧ ∃ raw, @json_loads Scenario.working raw
           = inr (@process_md_gpt Scenario.working (Some "# Piano")
                    Sample.with_keys).1.
Proof.
  assert ((@process_md_gpt Scenario.working (Some "# Piano")
             Sample.with_keys).1 ≠ JNull) as Hresult by discriminate.
  destruct (@structured_result_was_parsed Scenario.working Sample.with_keys
              (Some "# Piano") Hresult) as (md & raw & others & _ & _ & Hloads).
  split; [exact Hresult|]. exists raw. exact Hloads.
Defined.

(** X9: when the request to the language model raises, [process_md_gpt]
    catches the exception and returns [None].  For a
    [json.JSONDecodeError] it shows the parse error and, as there is no
    answer to show, the text [Nessuna risposta per JSONDecodeError]; for
    any other exception it shows the message of the exception. *)
Theorem call_failure_is_reported `{Services} (w : World)
    (markdown_content : string) (e : failure) :
  OPENAI_API_KEY w ≠ "" →
  markdown_content ≠ "" →
  chat_completions_create (calls w) (OPENAI_API_KEY w)
    (request markdown_content) = inl e →
  (process_md_gpt (Some markdown_content) w).1 = JNull
  ∧ elements (process_md_gpt (Some markdown_content) w).2
    = elements w ++
      st_info "Processing del markdown con gpt-4o-mini..." ::
      match e with
      | JSONDecodeError msg =>
          [st_error
             ("Errore nel parsing del JSON dalla risposta di GPT: " +:+ msg);
           st_text "Risposta ricevuta (potrebbe essere troncata):";
           st_code "Nessuna risposta per JSONDecodeError"]
      | OtherException msg =>
          [st_error ("Errore durante la chiamata a gpt-4o-mini: " +:+ msg)]
      end
  ∧ calls (process_md_gpt (Some markdown_content) w).2
    = calls w ++ [ChatCall (OPENAI_API_KEY w) (request markdown_content)].
Proof.
  intros Hkey Hmd Hanswer. unfold process_md_gpt. st_step.
  destruct (String.eqb_spec (OPENAI_API_KEY w) "") as [|_]; [done|].
  destruct markdown_content as [|c md]; [done|].
  unfold create. st_step. cbn [calls]. rewrite Hanswer.
  destruct e; unfold except, except_JSONDecodeError, except_Exception;
    st_step; cbn [fst snd elements calls default];
    by rewrite <- !app_assoc.
Qed.

Lemma call_failure_is_reported_unreachable :
  OPENAI_API_KEY Sample.with_keys ≠ ""
  ∧ "# Piano" ≠ ""
  ∧ (@process_md_gpt Scenario.unreachable (Some "# Piano")
       Sample.with_keys).1 = JNull
  ∧ elements (@process_md_gpt Scenario.unreachable (Some "# Piano")
                Sample.with_keys).2
    = [st_info "Processing del markdown con gpt-4o-mini...";
       st_error "Errore durante la chiamata a gpt-4o-mini: Connection error."].
Proof.
  assert (OPENAI_API_KEY Sample.with_keys ≠ "") as Hkey by discriminate.
  assert ("# Piano" ≠ "") as Hmd by discriminate.
  destruct (@call_failure_is_reported Scenario.unreachable Sample.with_keys
              "# Piano" (OtherException "Connection error.")
              Hkey Hmd eq_refl) as (Hnull & Hshown & _).
  split; [exact Hkey|]. split; [exact Hmd|].
  split; [exact Hnull | exact Hshown].
Defined.

(** X10: an answer with no choice, or whose first choice has no content,
    is caught like any exception: [process_md_gpt] returns [None] and
    shows the message of the [IndexError] or of the [TypeError]. *)
Theorem answer_without_content_is_reported `{Services} (w : World)
    (markdown_content : string) (answer : list (option string)) :
  OPENAI_API_KEY w ≠ "" →
  markdown_content ≠ "" →
  chat_completions_create (calls w) (OPENAI_API_KEY w)
    (request markdown_content) = inr {| choices := answer |} →
  head answer = None ∨ head answer = Some None →
  (process_md_gpt (Some markdown_content) w).1 = JNull
  ∧ elements (process_md_gpt (Some markdown_content) w).2
    = elements w ++
      [st_info "Processing del markdown con gpt-4o-mini...";
       st_error
         ("Errore durante la chiamata a gpt-4o-mini: " +:+
          match answer with
          | [] => "list index out of range"
          | _ =>
              "the JSON object must be str, bytes or bytearray, not NoneType"
          end)].
Proof.
  intros Hkey Hmd Hanswer Hhead. unfold process_md_gpt. st_step.
  destruct (String.eqb_spec (OPENAI_API_KEY w) "") as [|_]; [done|].
  destruct markdown_content as [|c md]; [done|].
  unfold create. st_step. cbn [calls]. rewrite Hanswer. cbn [choices].
  destruct answer as [|[raw|] others].
  - unfold except, except_Exception. st_step. cbn [fst snd elements].
    by rewrite <- !app_assoc.
  - by destruct Hhead.
  - unfold except, except_Exception. st_step. cbn [fst snd elements].
    by rewrite <- !app_assoc.
Qed.

Lemma answer_without_content_is_reported_silent :
  OPENAI_API_KEY Sample.with_keys ≠ ""
  ∧ "# Piano" ≠ ""
  ∧ (@process_md_gpt Scenario.silent (Some "# Piano") Sample.with_keys).1
    = JNull
  ∧ elements (@process_md_gpt Scenario.silent (Some "# Piano")
                Sample.with_keys).2
    = [st_info "Processing del markdown con gpt-4o-mini...";
       st_error
         "Errore durante la chiamata a gpt-4o-mini: list index out of range"].
Proof.
  assert (OPENAI_API_KEY Sample.with_keys ≠ "") as Hkey by discriminate.
  assert ("# Piano" ≠ "") as Hmd by discriminate.
  destruct (@answer_without_content_is_reported Scenario.silent
              Sample.with_keys "# Piano" [] Hkey Hmd eq_refl
              (or_introl eq_refl)) as (Hnull & Hshown).
  split; [exact Hkey|]. split; [exact Hmd|].
  split; [exact Hnull | exact Hshown].
Defined.

(** ** More on the tables *)

Section AnyDays.
Context `{Builtins}.

(** A row that is built has the six keys, in their order. *)
Lemma weekly_row_keys (giorno : json) (row : dict json) :
  weekly_row giorno = Ok row → map fst row = weekly_columns.
Proof.
  unfold weekly_row. intros Hrun.
  apply bind_inv in Hrun as (label & _ & Hrun).
  unfold pasto_keys in Hrun. cbn [for_each] in Hrun.
  repeat (apply bind_inv in Hrun as (? & [? ->]%weekly_pasto_sets & Hrun)).
  injection Hrun as Hrow. rewrite <- Hrow. reflexivity.
Qed.

Lemma weekly_rows_built (days : list json) (acc rows : list (dict json)) :
  for_each days (λ giorno rows,
                   giorno_row ← weekly_row giorno;
                   mret (rows ++ [giorno_row])) acc = Ok rows →
  ∃ more, rows = acc ++ more
        ∧ length more = length days
        ∧ Forall (λ row, map fst row = weekly_columns) more.
Proof.
  revert acc. induction days as [|giorno days IH]; simpl; intros acc Hrun.
  - injection Hrun as <-. exists []. by rewrite app_nil_r.
  - apply bind_inv in Hrun as (mid & Hmid & Hrun).
    apply bind_inv in Hmid as (row & Hrow%weekly_row_keys & Hmid).
    injection Hmid as <-. apply IH in Hrun as (more & -> & Hlen & Hkeys).
    exists (row :: more). rewrite <- app_assoc. split; [done|].
    split; [by rewrite <- Hlen|by constructor].
Qed.

End AnyDays.

(** The frame of rows that all have the six keys. *)
Lemma DataFrame_of_six (rows : list (dict json)) :
  Forall (λ row, map fst row = weekly_columns) rows →
  columns (Pd.DataFrame_of rows)
  = match rows with [] => [] | _ => weekly_columns end
  ∧ length (values (Pd.DataFrame_of rows)) = length rows
  ∧ Forall (λ cells, length cells = length (columns (Pd.DataFrame_of rows)))
           (values (Pd.DataFrame_of rows)).
Proof.
  intros Hrows. unfold Pd.DataFrame_of. cbn [columns values].
  split; [|split].
  - assert (∀ rs : list (dict json),
              Forall (λ row, map fst row = weekly_columns) rs →
              fold_left (λ cols row, fold_left Pd.add_key (map fst row) cols)
                        rs weekly_columns = weekly_columns) as Hfix.
    { induction 1 as [|r rs Hr _ IH]; [done|]. cbn [fold_left].
      rewrite Hr. apply IH. }
    destruct Hrows as [|r rs Hr Hrs]; [done|].
    cbn [fold_left]. rewrite Hr. by apply Hfix.
  - by rewrite length_map.
  - apply Forall_forall. intros cells [row [-> _]]%list_elem_of_fmap.
    by rewrite length_map.
Qed.

(** X11: whatever the days hold, a weekly table that is built has one
    row per element of the list [giorni], no column when that list is
    empty and the six columns otherwise, and six cells in every row. *)
Theorem weekly_table_of_any_days `{Builtins} (json_output : dict json)
    (days : list json) (df : DataFrame) :
  Py.lookup "giorni" json_output = Some (JList days) →
  get_weekly_plan (JDict json_output) = Ok df →
  length (values df) = length days
  ∧ columns df = match days with
                 | [] => []
                 | _ => ["giorno"; "colazione"; "spuntino_mattina"; "pranzo";
                         "spuntino_pomeriggio"; "cena"]
                 end
  ∧ Forall (λ cells, length cells = length (columns df)) (values df).
Proof.
  intros Hdays. unfold get_weekly_plan. cbn [Py.get]. rewrite Hdays.
  cbn [from_option id]. rewrite bind_Ok, iter_list, bind_Ok. intros Hrun.
  apply bind_inv in Hrun as (rows & Hrows & Hrun). injection Hrun as <-.
  apply weekly_rows_built in Hrows as (more & -> & Hlen & Hkeys).
  cbn [app]. destruct (DataFrame_of_six more Hkeys) as (Hcols & Hn & Hcells).
  split; [by rewrite Hn|]. split; [|done].
  rewrite Hcols. destruct more, days; done.
Qed.

Lemma weekly_table_of_any_days_bare :
  Py.lookup "giorni" [("giorni", JList [JDict Sample.bare_day; JDict []])]
  = Some (JList [JDict Sample.bare_day; JDict []])
  ∧ ∃ df, @get_weekly_plan sample_builtins
            (JDict [("giorni", JList [JDict Sample.bare_day; JDict []])])
          = Ok df
        ∧ length (values df) = 2
        ∧ length (columns df) = 6.
Proof.
  split; [reflexivity|]. eexists. split; [reflexivity|].
  destruct (@weekly_table_of_any_days sample_builtins
              [("giorni", JList [JDict Sample.bare_day; JDict []])]
              [JDict Sample.bare_day; JDict []] _ eq_refl eq_refl)
    as (Hrows & Hcols & _).
  split; [exact Hrows|]. by rewrite Hcols.
Defined.

(** X12: a dict without the key [giorni] is no error for
    [get_weekly_plan]: the table is the empty frame, with no row and no
    column. *)
Theorem weekly_table_without_key `{Builtins} (json_output : dict json) :
  Py.lookup "giorni" json_output = None →
  get_weekly_plan (JDict json_output) = Ok {| columns := []; values := [] |}.
Proof.
  intros Hmiss. unfold get_weekly_plan. cbn [Py.get]. by rewrite Hmiss.
Qed.

Lemma weekly_table_without_key_notes_only :
  Py.lookup "giorni" [("note/consigli", JList [JStr "Bere acqua"])] = None
  ∧ @get_weekly_plan sample_builtins
      (JDict [("note/consigli", JList [JStr "Bere acqua"])])
    = Ok {| columns := []; values := [] |}.
Proof.
  split; [reflexivity|].
  exact (@weekly_table_without_key sample_builtins
           [("note/consigli", JList [JStr "Bere acqua"])] eq_refl).
Defined.

(** X13: the two table functions have no guard.  On a value that is not
    a dict, [None] included, both raise [AttributeError]; [json_to_text]
    alone answers [None] with its diagnostic. *)
Theorem tables_need_a_dict `{Builtins} (json_output : json) :
  is_dict json_output = false →
  get_weekly_plan json_output = Raise AttributeError
  ∧ get_notes json_output = inl (PyError AttributeError).
Proof. by destruct json_output. Qed.

Lemma tables_need_a_dict_None :
  is_dict JNull = false
  ∧ @get_weekly_plan sample_builtins JNull = Raise AttributeError
  ∧ get_notes JNull = inl (PyError AttributeError)
  ∧ @json_to_text sample_builtins JNull
    = Ok "Dati JSON non validi o mancanti.".
Proof.
  destruct (@tables_need_a_dict sample_builtins JNull eq_refl)
    as [Hweekly Hnotes].
  split; [reflexivity|]. split; [exact Hweekly|].
  split; [exact Hnotes | reflexivity].
Defined.

(** X14: for every plan of the schema the notes table has one row per
    note, in the order of the notes, and exactly one column, also when
    there is no note. *)
Theorem notes_table_of_plan (plan : MealPlan) :
  get_notes (Schema.plan_json plan)
  = inr (RangeFrame
           {| columns := ["note/consigli"];
              values := map (λ nota, [JStr nota]) (note_consigli plan) |})
  ∧ Pd.shape {| columns := ["note/consigli"];
                values := map (λ nota, [JStr nota]) (note_consigli plan) |}
    = (length (note_consigli plan), 1).
Proof.
  split.
  - unfold get_notes, Schema.plan_json. cbn. by rewrite map_map.
  - unfold Pd.shape. cbn. by rewrite length_map.
Qed.

(** X15: the edges of the notes table.  Without the key [note/consigli]
    the table is the frame with the one column and no row; with notes
    that are one string and not a list, pandas raises [ValueError] and
    the function with it. *)
Theorem notes_table_edges (json_output : dict json) :
  (Py.lookup "note/consigli" json_output = None →
   get_notes (JDict json_output)
   = inr (RangeFrame {| columns := ["note/consigli"]; values := [] |}))
  ∧ (∀ nota, Py.lookup "note/consigli" json_output = Some (JStr nota) →
       get_notes (JDict json_output) = inl ValueError).
Proof.
  unfold get_notes. cbn [Py.get].
  split; [intros ->|intros nota ->]; reflexivity.
Qed.

Lemma notes_table_edges_one_string :
  Py.lookup "note/consigli" [("giorni", JList []);
                             ("note/consigli", JStr "Bere acqua")]
  = Some (JStr "Bere acqua")
  ∧ get_notes (JDict [("giorni", JList []);
                      ("note/consigli", JStr "Bere acqua")])
    = inl ValueError.
Proof.
  split; [reflexivity|].
  exact (proj2 (notes_table_edges [("giorni", JList []);
                                   ("note/consigli", JStr "Bere acqua")])
               "Bere acqua" eq_refl).
Defined.

(** ** The script *)

Ltac sh_step :=
  unfold mbind, Shell_bind, mret, Shell_ret, Shell.read, Shell.show,
    Shell.call, Shell.lift, Shell.set_markdown_content,
    Shell.set_meal_plan_json, Shell.write_temporary, Shell.remove_if_exists;
  cbn beta iota.

Ltac sh_fields :=
  cbn [world files session_markdown_content session_meal_plan_json page].

Lemma show_bind {B} (wd : widget) (k : unit → Shell B) (s : Session) :
  (Shell.show wd ≫= k) s
  = k tt {| world := world s;
            files := files s;
            session_markdown_content := session_markdown_content s;
            session_meal_plan_json := session_meal_plan_json s;
            page := page s ++ [wd] |}.
Proof. reflexivity. Qed.

Lemma lift_bind {A B} (r : result A) (k : A → Shell B) (s : Session) :
  (Shell.lift r ≫= k) s
  = match r with
    | Ok a => k a s
    | Raise e => (inl (PyError e), s)
    end.
Proof. by destruct r. Qed.

Lemma outcome_bind {A B} (r : crash + A) (k : A → Shell B) (s : Session) :
  (Shell.outcome r ≫= k) s
  = match r with
    | inr a => k a s
    | inl c => (inl c, s)
    end.
Proof. by destruct r. Qed.

Lemma read_bind {A B} (f : Session → A) (k : A → Shell B) (s : Session) :
  (Shell.read f ≫= k) s = k (f s) s.
Proof. reflexivity. Qed.

Lemma bind_run {A B} (m : Shell A) (k : A → Shell B) (s s' : Session)
    (a : A) :
  m s = (inr a, s') → (m ≫= k) s = k a s'.
Proof. unfold mbind, Shell_bind. by intros ->. Qed.

Ltac sh_go := repeat (rewrite show_bind; sh_fields).

Section ScriptFacts.
Context `{Builtins} `{Services} `{Platform}.

(** The first stage never stops the script; it calls the parser only
    when the session holds no markdown, and then keeps what it got. *)
Lemma parsing_stage_cases (path : string) (s : Session) :
  parsing_stage path s
  = match session_markdown_content s with
    | Some markdown_content =>
        (inr markdown_content,
         {| world := world s;
            files := files s;
            session_markdown_content := session_markdown_content s;
            session_meal_plan_json := session_meal_plan_json s;
            page := ((page s ++ [st_markdown "---"]) ++
                     [st_subheader "1. Parsing del PDF"]) ++
                    [st_spinner "Attendere prego: parsing in corso..."] |})
    | None =>
        (inr (process_pdf_llamaparse path (world s)).1,
         {| world := (process_pdf_llamaparse path (world s)).2;
            files := files s;
            session_markdown_content :=
              Some (process_pdf_llamaparse path (world s)).1;
            session_meal_plan_json := session_meal_plan_json s;
            page := (((page s ++ [st_markdown "---"]) ++
                      [st_subheader "1. Parsing del PDF"]) ++
                     [st_spinner "Attendere prego: parsing in corso..."]) ++
                    map st_element
                      (drop (length (elements (world s)))
                         (elements (process_pdf_llamaparse path (world s)).2))
         |})
    end.
Proof.
  unfold parsing_stage. sh_step. cbn [session_markdown_content world].
  destruct (session_markdown_content s) as [held|]; [done|].
  sh_step. cbn [world].
  generalize (process_pdf_llamaparse path (world s)).
  intros [markdown_content w']. reflexivity.
Qed.

Lemma extraction_stage_cases (markdown_content : string) (s : Session) :
  ∃ shown,
    extraction_stage markdown_content s
    = match session_meal_plan_json s with
      | Some meal_plan_json =>
          (inr meal_plan_json,
           {| world := world s;
              files := files s;
              session_markdown_content := session_markdown_content s;
              session_meal_plan_json := session_meal_plan_json s;
              page := page s ++ shown |})
      | None =>
          (inr (process_md_gpt (Some markdown_content) (world s)).1,
           {| world := (process_md_gpt (Some markdown_content) (world s)).2;
              files := files s;
              session_markdown_content := session_markdown_content s;
              session_meal_plan_json :=
                Some (process_md_gpt (Some markdown_content) (world s)).1;
              page := (page s ++ shown) ++
                map st_element
                  (drop (length (elements (world s)))
                     (elements
                        (process_md_gpt (Some markdown_content) (world s)).2))
           |})
      end.
Proof.
  exists [st_expander "Visualizza contenuto Markdown estratto (grezzo)" false
            [st_markdown ("```markdown" +:+ PyStr.nl +:+ markdown_content +:+
                          PyStr.nl +:+ "```")];
          st_markdown "---";
          st_subheader "2. Estrazione strutturata del Piano Alimentare";
          st_spinner "Attendere prego: estrazione in corso..."].
  unfold extraction_stage. sh_step.
  cbn [world files session_markdown_content session_meal_plan_json page].
  destruct (session_meal_plan_json s) as [held|].
  - by rewrite <- !app_assoc.
  - sh_step.
    cbn [world files session_markdown_content session_meal_plan_json page].
    generalize (process_md_gpt (Some markdown_content) (world s)).
    intros [meal_plan_json w']. cbn [fst snd world page].
    rewrite <- !app_assoc. reflexivity.
Qed.

(** The third stage changes nothing but the page. *)
Lemma display_stage_keeps (meal_plan_json : json) (s : Session) :
  ∃ outcome shown,
    display_stage meal_plan_json s
    = (outcome, {| world := world s;
                   files := files s;
                   session_markdown_content := session_markdown_content s;
                   session_meal_plan_json := session_meal_plan_json s;
                   page := page s ++ shown |}).
Proof.
  unfold display_stage. rewrite show_bind, lift_bind.
  generalize (get_weekly_plan meal_plan_json). intros [df|e];
    [|eexists _, [_]; reflexivity].
  sh_go. rewrite outcome_bind.
  generalize (get_notes meal_plan_json). intros [c|notes_df];
    [rewrite <- !app_assoc; eexists _, _; reflexivity|].
  sh_go. rewrite lift_bind.
  generalize (json_to_text meal_plan_json). intros [text|e];
    [sh_go; unfold Shell.show; sh_fields|];
    rewrite <- !app_assoc; eexists _, _; reflexivity.
Qed.

(** What follows the first stage changes the world and the held plan
    only when there is markdown and no plan is held: then both come from
    the one call of [process_md_gpt]. *)
Lemma result_stage_cases (markdown_content : option string) (s : Session) :
  ∃ outcome shown,
    result_stage markdown_content s
    = (outcome,
       match nonempty markdown_content, session_meal_plan_json s with
       | Some md, None =>
           {| world := (process_md_gpt (Some md) (world s)).2;
              files := files s;
              session_markdown_content := session_markdown_content s;
              session_meal_plan_json :=
                Some (process_md_gpt (Some md) (world s)).1;
              page := page s ++ shown |}
       | _, _ =>
           {| world := world s;
              files := files s;
              session_markdown_content := session_markdown_content s;
              session_meal_plan_json := session_meal_plan_json s;
              page := page s ++ shown |}
       end).
Proof.
  unfold result_stage.
  destruct (nonempty markdown_content) as [md|];
    [|exists (inr tt); eexists [_]; reflexivity].
  destruct (extraction_stage_cases md s) as [shown1 Hstage].
  destruct (session_meal_plan_json s) as [held|] eqn:Hheld;
    rewrite (bind_run _ _ _ _ _ Hstage).
  - destruct (Py.truthy held).
    + match goal with
      | |- context [display_stage held ?s1] =>
          destruct (display_stage_keeps held s1) as (outcome & shown2 & ->)
      end.
      sh_fields. exists outcome, (shown1 ++ shown2).
      by rewrite app_assoc.
    + unfold Shell.show. sh_fields. exists (inr tt).
      exists (shown1 ++
              [st_element (st_error
                 "Non è stato possibile generare il JSON strutturato dal markdown.")]).
      by rewrite app_assoc.
  - clear Hstage. generalize (process_md_gpt (Some md) (world s)).
    intros [meal_plan_json w']. cbn [fst snd].
    destruct (Py.truthy meal_plan_json).
    + match goal with
      | |- context [display_stage meal_plan_json ?s1] =>
          destruct (display_stage_keeps meal_plan_json s1)
            as (outcome & shown2 & ->)
      end.
      sh_fields. exists outcome.
      exists ((shown1 ++
               map st_element
                 (drop (length (elements (world s))) (elements w'))) ++
              shown2).
      by rewrite !app_assoc.
    + unfold Shell.show. sh_fields. exists (inr tt).
      exists ((shown1 ++
               map st_element
                 (drop (length (elements (world s))) (elements w'))) ++
              [st_element (st_error
                 "Non è stato possibile generare il JSON strutturato dal markdown.")]).
      by rewrite !app_assoc.
Qed.

(** The third stage when the three views are built. *)
Lemma display_stage_built (meal_plan_json : json) (s : Session)
    (weekly_plan_df : DataFrame) (notes_df : frame)
    (json_text_output : string) :
  get_weekly_plan meal_plan_json = Ok weekly_plan_df →
  get_notes meal_plan_json = inr notes_df →
  json_to_text meal_plan_json = Ok json_text_output →
  display_stage meal_plan_json s
  = (inr tt, {| world := world s;
                files := files s;
                session_markdown_content := session_markdown_content s;
                session_meal_plan_json := session_meal_plan_json s;
                page := page s ++
                  displayed weekly_plan_df notes_df json_text_output |}).
Proof.
  intros Hweekly Hnotes Htext. unfold display_stage.
  rewrite show_bind, lift_bind, Hweekly. sh_go.
  rewrite outcome_bind, Hnotes. sh_go. rewrite lift_bind, Htext. sh_go.
  unfold Shell.show. sh_fields. by rewrite <- !app_assoc.
Qed.

Lemma display_stage_not_a_dict (meal_plan_json : json) (s : Session) :
  is_dict meal_plan_json = false →
  display_stage meal_plan_json s
  = (inl (PyError AttributeError),
     {| world := world s;
        files := files s;
        session_markdown_content := session_markdown_content s;
        session_meal_plan_json := session_meal_plan_json s;
        page := page s ++
          [st_subheader "2.1. Piano Alimentare Settimanale"] |}).
Proof.
  intros Hdict. unfold display_stage. rewrite show_bind, lift_bind.
  by destruct meal_plan_json.
Qed.

(** The block with both keys: the file is written, the first stage runs,
    the file is removed, and the rest follows. *)
Lemma upload_block_with_keys (content : string) (s : Session) :
  LLAMA_CLOUD_API_KEY (world s) ≠ "" →
  OPENAI_API_KEY (world s) ≠ "" →
  ∃ shown,
    upload_block (Some content) s
    = result_stage
        (match session_markdown_content s with
         | Some held => held
         | None =>
             (process_pdf_llamaparse (NamedTemporaryFile (files s))
                (world s)).1
         end)
        {| world :=
             match session_markdown_content s with
             | Some _ => world s
             | None =>
                 (process_pdf_llamaparse (NamedTemporaryFile (files s))
                    (world s)).2
             end;
           files :=
             delete (NamedTemporaryFile (files s))
               (<[NamedTemporaryFile (files s) := content]> (files s));
           session_markdown_content :=
             Some (match session_markdown_content s with
                   | Some held => held
                   | None =>
                       (process_pdf_llamaparse (NamedTemporaryFile (files s))
                          (world s)).1
                   end);
           session_meal_plan_json := session_meal_plan_json s;
           page := page s ++ shown |}.
Proof.
  intros Hllama Hopenai. unfold upload_block. rewrite !read_bind.
  destruct (String.eqb_spec (LLAMA_CLOUD_API_KEY (world s)) "") as [|_];
    [done|].
  destruct (String.eqb_spec (OPENAI_API_KEY (world s)) "") as [|_];
    [done|].
  cbn [orb].
  rewrite (bind_run (Shell.write_temporary content) _ s _ _ eq_refl).
  match goal with
  | |- context [mbind _ (parsing_stage ?path) ?s1] =>
      pose proof (parsing_stage_cases path s1) as Hstage
  end.
  cbn [world files session_markdown_content session_meal_plan_json page]
    in Hstage.
  destruct (session_markdown_content s) as [held|] eqn:Hheld;
    rewrite (bind_run _ _ _ _ _ Hstage);
    erewrite (bind_run (Shell.remove_if_exists _) _ _ _ _ eq_refl);
    sh_fields; rewrite lookup_insert_eq.
  - eexists [_; _; _]. by rewrite <- !app_assoc.
  - eexists (_ :: _ :: _ :: _). by rewrite <- !app_assoc.
Qed.

End ScriptFacts.

Lemma followed_by_nl_nonempty (documents : list Document) :
  documents ≠ [] → followed_by_nl documents ≠ "".
Proof.
  destruct documents as [|doc docs]; [done|]. intros _.
  unfold followed_by_nl, PyStr.join. cbn [map].
  rewrite concat_empty_cons. destruct (text doc); discriminate.
Qed.

Lemma nonempty_Some (markdown_content : string) :
  markdown_content ≠ "" → nonempty (Some markdown_content) = Some markdown_content.
Proof. by destruct markdown_content. Qed.

Lemma get_notes_encoded (plan : MealPlan) :
  get_notes (Schema.plan_json plan)
  = inr (RangeFrame
           {| columns := ["note/consigli"];
              values := map (λ nota, [JStr nota]) (note_consigli plan) |}).
Proof. unfold get_notes, Schema.plan_json. cbn. by rewrite map_map. Qed.

Section Runs.
Context `{Builtins} `{Services} `{Platform}.

Lemma json_to_text_no_giorni (d : dict json) :
  Py.lookup "giorni" d = None → json_to_text (JDict d) = Ok invalid_data.
Proof.
  intros Hd. unfold json_to_text. destruct d as [|kv d]; [reflexivity|].
  cbn [Py.truthy negb Py.contains]. rewrite bind_Ok, Hd. reflexivity.
Qed.

(** A successful parse, in full. *)
Lemma parse_run (w : World) (pdf_file_path : string)
    (documents : list Document) :
  LLAMA_CLOUD_API_KEY w ≠ "" →
  cache_data w !! pdf_file_path = None →
  documents ≠ [] →
  load_data (calls w) (parser (LLAMA_CLOUD_API_KEY w)) pdf_file_path
  = inr documents →
  ∃ shown entry,
    process_pdf_llamaparse pdf_file_path w
    = (Some (followed_by_nl documents),
       {| LLAMA_CLOUD_API_KEY := LLAMA_CLOUD_API_KEY w;
          OPENAI_API_KEY := OPENAI_API_KEY w;
          elements := elements w ++ shown;
          calls := calls w ++
            [ParseCall (parser (LLAMA_CLOUD_API_KEY w)) pdf_file_path];
          cache_data := <[pdf_file_path := entry]> (cache_data w) |}).
Proof.
  intros Hkey Hmiss Hdocs Hanswer. unfold process_pdf_llamaparse.
  rewrite (cached_miss _ _ _ Hmiss).
  unfold process_pdf_llamaparse_body, parser_load_data. st_step.
  destruct (String.eqb_spec (LLAMA_CLOUD_API_KEY w) "") as [|_]; [done|].
  cbn [calls]. rewrite Hanswer.
  destruct documents as [|doc docs]; [done|].
  cbn [LLAMA_CLOUD_API_KEY OPENAI_API_KEY elements calls cache_data].
  rewrite parsed_content_fold.
  change ("" +:+ followed_by_nl (doc :: docs))
    with (followed_by_nl (doc :: docs)).
  rewrite <- app_assoc. by eexists _, _.
Qed.

(** With its key and some markdown [process_md_gpt] sends its request,
    whatever comes back. *)
Lemma process_md_gpt_sends (w : World) (markdown_content : string) :
  OPENAI_API_KEY w ≠ "" →
  markdown_content ≠ "" →
  calls (process_md_gpt (Some markdown_content) w).2
  = calls w ++ [ChatCall (OPENAI_API_KEY w) (request markdown_content)].
Proof.
  intros Hkey Hmd. unfold process_md_gpt. st_step.
  destruct (String.eqb_spec (OPENAI_API_KEY w) "") as [|_]; [done|].
  destruct markdown_content as [|c md]; [done|].
  unfold create. st_step. cbn [calls].
  destruct (chat_completions_create (calls w) (OPENAI_API_KEY w)
              (request (String c md))) as [e|[[|[raw|] others]]];
    cbn [choices].
  - by destruct e.
  - done.
  - by destruct (json_loads raw) as [[]|].
  - done.
Qed.

Lemma block_without_keys (content : string) (s : Session) :
  LLAMA_CLOUD_API_KEY (world s) = "" ∨ OPENAI_API_KEY (world s) = "" →
  upload_block (Some content) s
  = (inr tt,
     {| world := world s;
        files := files s;
        session_markdown_content := session_markdown_content s;
        session_meal_plan_json := session_meal_plan_json s;
        page := page s ++
          [st_element (st_error
             "Per favore, inserisci le API key nella sidebar per procedere.")]
     |}).
Proof.
  intros Hkeys. unfold upload_block. rewrite !read_bind.
  destruct (String.eqb_spec (LLAMA_CLOUD_API_KEY (world s)) "") as [|Hl];
    [done|].
  destruct (String.eqb_spec (OPENAI_API_KEY (world s)) "") as [|Ho];
    [done|].
  by destruct Hkeys.
Qed.

End Runs.

(** X16: with either key missing the block does nothing but show the
    error about the keys: no file is written, no request is sent, and
    the session is left as it is. *)
Theorem missing_key_blocks_the_pipeline `{Builtins} `{Services} `{Platform}
    (content : string) (s : Session) :
  LLAMA_CLOUD_API_KEY (world s) = "" ∨ OPENAI_API_KEY (world s) = "" →
  upload_block (Some content) s
  = (inr tt,
     {| world := world s;
        files := files s;
        session_markdown_content := session_markdown_content s;
        session_meal_plan_json := session_meal_plan_json s;
        page := page s ++
          [st_element (st_error
             "Per favore, inserisci le API key nella sidebar per procedere.")]
     |}).
Proof. apply block_without_keys. Qed.

Lemma missing_key_blocks_the_pipeline_first_run :
  (LLAMA_CLOUD_API_KEY (world Scenario.first_run_no_keys) = ""
   ∨ OPENAI_API_KEY (world Scenario.first_run_no_keys) = "")
  ∧ calls (world (@upload_block sample_builtins Scenario.working
                    Scenario.platform (Some "%PDF-1.7")
                    Scenario.first_run_no_keys).2) = []
  ∧ files (@upload_block sample_builtins Scenario.working Scenario.platform
             (Some "%PDF-1.7") Scenario.first_run_no_keys).2 = ∅.
Proof.
  pose proof (@missing_key_blocks_the_pipeline sample_builtins
                Scenario.working Scenario.platform "%PDF-1.7"
                Scenario.first_run_no_keys (or_introl eq_refl)) as Hrun.
  split; [by left|]. rewrite Hrun. split; reflexivity.
Defined.

(** X17: the block leaves the files as it found them.  When the name of
    the temporary file is new, the file the block writes is removed
    again before anything else happens, so after the block, whether it
    ends or an exception stops it, the files are those of before. *)
Theorem temporary_file_is_removed `{Builtins} `{Services} `{Platform}
    (uploaded_file : option string) (s : Session) :
  files s !! NamedTemporaryFile (files s) = None →
  files (upload_block uploaded_file s).2 = files s.
Proof.
  intros Hnew. destruct uploaded_file as [content|]; [|done].
  destruct (String.eqb_spec (LLAMA_CLOUD_API_KEY (world s)) "") as [Hl|Hl];
    [rewrite block_without_keys; auto|].
  destruct (String.eqb_spec (OPENAI_API_KEY (world s)) "") as [Ho|Ho];
    [rewrite block_without_keys; auto|].
  destruct (upload_block_with_keys content s Hl Ho) as [shown ->].
  match goal with
  | |- context [result_stage ?md ?s3] =>
      destruct (result_stage_cases md s3) as (outcome & shown' & ->)
  end.
  cbn [snd]. sh_fields.
  match goal with
  | |- files match ?a with Some _ => _ | None => _ end = _ =>
      destruct a as [md|]
  end; [destruct (session_meal_plan_json s)|];
    cbn [files]; by apply delete_insert_id.
Qed.

Lemma temporary_file_is_removed_first_run :
  files Scenario.first_run
    !! @NamedTemporaryFile Scenario.platform (files Scenario.first_run)
  = None
  ∧ files (@upload_block sample_builtins Scenario.working Scenario.platform
             (Some "%PDF-1.7") Scenario.first_run).2
    = files Scenario.first_run.
Proof.
  split; [reflexivity|].
  exact (@temporary_file_is_removed sample_builtins Scenario.working
           Scenario.platform (Some "%PDF-1.7") Scenario.first_run eq_refl).
Defined.

(** X18: what the session holds is reused, failures too.  When the
    session holds a markdown, and that markdown is empty or a plan is
    held as well, the block calls neither service function: the world is
    the one of before and the held values stay, even when the held
    markdown or plan is the [None] of a failed stage. *)
Theorem held_results_are_reused `{Builtins} `{Services} `{Platform}
    (uploaded_file : option string) (s : Session)
    (held : option string) :
  session_markdown_content s = Some held →
  nonempty held = None ∨ is_Some (session_meal_plan_json s) →
  world (upload_block uploaded_file s).2 = world s
  ∧ session_markdown_content (upload_block uploaded_file s).2 = Some held
  ∧ session_meal_plan_json (upload_block uploaded_file s).2
    = session_meal_plan_json s.
Proof.
  intros Hheld Hreuse. destruct uploaded_file as [content|];
    [|by rewrite <- Hheld].
  destruct (String.eqb_spec (LLAMA_CLOUD_API_KEY (world s)) "") as [Hl|Hl];
    [rewrite block_without_keys; auto|].
  destruct (String.eqb_spec (OPENAI_API_KEY (world s)) "") as [Ho|Ho];
    [rewrite block_without_keys; auto|].
  destruct (upload_block_with_keys content s Hl Ho) as [shown ->].
  rewrite Hheld.
  match goal with
  | |- context [result_stage ?md ?s3] =>
      destruct (result_stage_cases md s3) as (outcome & shown' & ->)
  end.
  cbn [snd]. sh_fields.
  destruct Hreuse as [-> | [plan ->]]; [done|].
  by destruct (nonempty held).
Qed.

Lemma held_results_are_reused_after_failed_parse :
  session_markdown_content Scenario.after_failed_parse = Some None
  ∧ LLAMA_CLOUD_API_KEY (world Scenario.after_failed_parse) = "llx-key"
  ∧ calls (world (@upload_block sample_builtins Scenario.working
                    Scenario.platform (Some "%PDF-1.7")
                    Scenario.after_failed_parse).2) = []
  ∧ session_markdown_content
      (@upload_block sample_builtins Scenario.working Scenario.platform
         (Some "%PDF-1.7") Scenario.after_failed_parse).2 = Some None.
Proof.
  destruct (@held_results_are_reused sample_builtins Scenario.working
              Scenario.platform (Some "%PDF-1.7") Scenario.after_failed_parse
              None eq_refl (or_introl eq_refl)) as (Hworld & Hmd & _).
  split; [reflexivity|]. split; [reflexivity|].
  split; [by rewrite Hworld | exact Hmd].
Defined.

(** X19: a plan that is not a dict stops the script.  When the plan the
    session holds is a truthy value that is not a dict (a list or a
    number the language model answered with), the block ends with the
    [AttributeError] of [get_weekly_plan], which nothing catches. *)
Theorem plan_that_is_no_dict_stops_the_script
    `{Builtins} `{Services} `{Platform}
    (content : string) (s : Session) (markdown_content : string)
    (meal_plan_json : json) :
  LLAMA_CLOUD_API_KEY (world s) ≠ "" →
  OPENAI_API_KEY (world s) ≠ "" →
  session_markdown_content s = Some (Some markdown_content) →
  markdown_content ≠ "" →
  session_meal_plan_json s = Some meal_plan_json →
  Py.truthy meal_plan_json = true →
  is_dict meal_plan_json = false →
  (upload_block (Some content) s).1 = inl (PyError AttributeError).
Proof.
  intros Hl Ho Hmd Hsome Hplan Htruthy Hdict.
  destruct (upload_block_with_keys content s Hl Ho) as [shown ->].
  rewrite Hmd, Hplan. unfold result_stage. rewrite (nonempty_Some _ Hsome).
  match goal with
  | |- context [mbind _ (extraction_stage ?md) ?s3] =>
      destruct (extraction_stage_cases md s3) as [shown' Hstage]
  end.
  cbn [world files session_markdown_content session_meal_plan_json page]
    in Hstage.
  rewrite (bind_run _ _ _ _ _ Hstage), Htruthy.
  by rewrite display_stage_not_a_dict.
Qed.

Lemma plan_that_is_no_dict_stops_the_script_list :
  Py.truthy (JList [JStr "lunedi"]) = true
  ∧ is_dict (JList [JStr "lunedi"]) = false
  ∧ (@upload_block sample_builtins Scenario.working Scenario.platform
       (Some "%PDF-1.7") (Scenario.holding (JList [JStr "lunedi"]))).1
    = inl (PyError AttributeError).
Proof.
  assert (LLAMA_CLOUD_API_KEY (world (Scenario.holding (JList [JStr "lunedi"])))
          ≠ "") as Hl by discriminate.
  assert (OPENAI_API_KEY (world (Scenario.holding (JList [JStr "lunedi"])))
          ≠ "") as Ho by discriminate.
  assert ("# Piano" +:+ PyStr.nl ≠ "") as Hmd by discriminate.
  split; [reflexivity|]. split; [reflexivity|].
  exact (@plan_that_is_no_dict_stops_the_script sample_builtins
           Scenario.working Scenario.platform "%PDF-1.7"
           (Scenario.holding (JList [JStr "lunedi"])) ("# Piano" +:+ PyStr.nl)
           (JList [JStr "lunedi"]) Hl Ho eq_refl Hmd eq_refl eq_refl eq_refl).
Defined.

(** X20: notes that are one string stop the script after the weekly
    table.  When the weekly table of a plan is built and its notes are a
    string and not a list, the third stage shows the weekly table and
    the heading of the notes and then ends with [ValueError]; the text
    of the plan is never shown. *)
Theorem notes_that_are_a_string_stop_the_script `{Builtins}
    (json_output : dict json) (s : Session) (weekly_plan_df : DataFrame)
    (nota : string) :
  get_weekly_plan (JDict json_output) = Ok weekly_plan_df →
  Py.lookup "note/consigli" json_output = Some (JStr nota) →
  display_stage (JDict json_output) s
  = (inl ValueError,
     {| world := world s;
        files := files s;
        session_markdown_content := session_markdown_content s;
        session_meal_plan_json := session_meal_plan_json s;
        page := page s ++
          [st_subheader "2.1. Piano Alimentare Settimanale";
           st_dataframe (RangeFrame weekly_plan_df) true;
           st_subheader "2.2. Note e Consigli"] |}).
Proof.
  intros Hweekly Hnota. unfold display_stage.
  rewrite show_bind, lift_bind, Hweekly. sh_go. rewrite outcome_bind.
  unfold get_notes. cbn [Py.get]. rewrite Hnota. cbn.
  by rewrite <- !app_assoc.
Qed.

Lemma notes_that_are_a_string_stop_the_script_sample :
  @get_weekly_plan sample_builtins
    (JDict [("giorni", JList []); ("note/consigli", JStr "Bere acqua")])
  = Ok {| columns := []; values := [] |}
  ∧ (@display_stage sample_builtins
       (JDict [("giorni", JList []); ("note/consigli", JStr "Bere acqua")])
       Scenario.first_run).1
    = inl ValueError.
Proof.
  split; [reflexivity|].
  exact (f_equal fst
           (@notes_that_are_a_string_stop_the_script sample_builtins
              [("giorni", JList []); ("note/consigli", JStr "Bere acqua")]
              Scenario.first_run {| columns := []; values := [] |}
              "Bere acqua" eq_refl eq_refl)).
Defined.

(** X21: for every plan of the schema the third stage ends well and
    shows, in this order, the weekly table of the plan, its notes table
    and its text report, each under its heading; it changes nothing but
    the page. *)
Theorem plan_is_displayed `{Builtins} (plan : MealPlan) (s : Session) :
  display_stage (Schema.plan_json plan) s
  = (inr tt,
     {| world := world s;
        files := files s;
        session_markdown_content := session_markdown_content s;
        session_meal_plan_json := session_meal_plan_json s;
        page := page s ++
          [st_subheader "2.1. Piano Alimentare Settimanale";
           st_dataframe
             (RangeFrame
                {| columns := match giorni plan with
                              | [] => []
                              | _ => weekly_columns
                              end;
                   values := map Spec.row_cells (giorni plan) |}) true;
           st_subheader "2.2. Note e Consigli";
           st_dataframe
             (RangeFrame
                {| columns := ["note/consigli"];
                   values := map (λ nota, [JStr nota]) (note_consigli plan) |})
             true;
           st_markdown
             "Puoi copiare i dati delle tabelle in Excel o Google Sheets.";
           st_markdown "---";
           st_subheader "3. Estrazione testuale del Piano Alimentare";
           st_text_area "Testo del Piano Alimentare" (Spec.report plan) 400;
           st_element (st_info
             "Per copiare il testo, selezionalo e usa Ctrl+C (o Cmd+C su Mac).")]
     |}).
Proof.
  rewrite (display_stage_built _ _ _ _ _ (get_weekly_plan_encoded plan)
             (get_notes_encoded plan) (json_to_text_encoded plan)).
  by rewrite DataFrame_of_rows.
Qed.

(** X22: a dict that has neither the days nor the notes is displayed
    without an error: an empty weekly table, a notes table with no row,
    and the diagnostic of [json_to_text] as the text. *)
Theorem dict_without_days_is_displayed `{Builtins} (json_output : dict json)
    (s : Session) :
  Py.lookup "giorni" json_output = None →
  Py.lookup "note/consigli" json_output = None →
  display_stage (JDict json_output) s
  = (inr tt,
     {| world := world s;
        files := files s;
        session_markdown_content := session_markdown_content s;
        session_meal_plan_json := session_meal_plan_json s;
        page := page s ++
          displayed {| columns := []; values := [] |}
            (RangeFrame {| columns := ["note/consigli"]; values := [] |})
            "Dati JSON non validi o mancanti." |}).
Proof.
  intros Hdays Hnotes. apply display_stage_built.
  - unfold get_weekly_plan. cbn [Py.get]. by rewrite Hdays.
  - unfold get_notes. cbn [Py.get]. by rewrite Hnotes.
  - by apply json_to_text_no_giorni.
Qed.

Lemma dict_without_days_is_displayed_error_object :
  Py.lookup "giorni" [("error", JStr "no plan found")] = None
  ∧ Py.lookup "note/consigli" [("error", JStr "no plan found")] = None
  ∧ (@display_stage sample_builtins (JDict [("error", JStr "no plan found")])
       Scenario.first_run).1 = inr tt.
Proof.
  split; [reflexivity|]. split; [reflexivity|].
  exact (f_equal fst
           (@dict_without_days_is_displayed sample_builtins
              [("error", JStr "no plan found")] Scenario.first_run
              eq_refl eq_refl)).
Defined.

(** X23: on a first run the stages are chained.  With both keys, nothing
    held in the session or memoised for the temporary file, and a
    parsing service that returns segments, the block sends two requests,
    in this order: the one for the temporary file, and the one to the
    language model whose prompt is built from the markdown of the first.
    The session then holds that markdown and a plan, whatever the
    language model answered. *)
Theorem first_run_chains_the_services `{Builtins} `{Services} `{Platform}
    (content : string) (s : Session) (documents : list Document) :
  LLAMA_CLOUD_API_KEY (world s) ≠ "" →
  OPENAI_API_KEY (world s) ≠ "" →
  session_markdown_content s = None →
  session_meal_plan_json s = None →
  cache_data (world s) !! NamedTemporaryFile (files s) = None →
  documents ≠ [] →
  load_data (calls (world s)) (parser (LLAMA_CLOUD_API_KEY (world s)))
    (NamedTemporaryFile (files s))
  = inr documents →
  calls (world (upload_block (Some content) s).2)
  = calls (world s) ++
    [ParseCall (parser (LLAMA_CLOUD_API_KEY (world s)))
       (NamedTemporaryFile (files s));
     ChatCall (OPENAI_API_KEY (world s))
       (request (followed_by_nl documents))]
  ∧ session_markdown_content (upload_block (Some content) s).2
    = Some (Some (followed_by_nl documents))
  ∧ is_Some (session_meal_plan_json (upload_block (Some content) s).2).
Proof.
  intros Hl Ho Hmd Hplan Hmiss Hdocs Hanswer.
  destruct (upload_block_with_keys content s Hl Ho) as [shown ->].
  rewrite Hmd.
  destruct (parse_run (world s) _ documents Hl Hmiss Hdocs Hanswer)
    as (shown1 & entry & ->).
  cbn [fst snd].
  match goal with
  | |- context [result_stage ?md ?s3] =>
      destruct (result_stage_cases md s3) as (outcome & shown' & ->)
  end.
  rewrite (nonempty_Some _ (followed_by_nl_nonempty _ Hdocs)).
  sh_fields. rewrite Hplan. cbn [snd]. sh_fields.
  split; [|split; [done|by eexists]].
  rewrite process_md_gpt_sends;
    [|done|by apply followed_by_nl_nonempty].
  cbn [calls OPENAI_API_KEY]. by rewrite <- app_assoc.
Qed.

Lemma first_run_chains_the_services_working :
  documents_of_first_run ≠ []
  ∧ map (λ c, match c with ParseCall _ _ => "parse" | ChatCall _ _ => "chat" end)
      (calls (world (@upload_block sample_builtins Scenario.working
                       Scenario.platform (Some "%PDF-1.7")
                       Scenario.first_run).2))
    = ["parse"; "chat"]
  ∧ session_markdown_content
      (@upload_block sample_builtins Scenario.working Scenario.platform
         (Some "%PDF-1.7") Scenario.first_run).2
    = Some (Some ("# Piano" +:+ PyStr.nl)).
Proof.
  assert (LLAMA_CLOUD_API_KEY (world Scenario.first_run) ≠ "") as Hl
    by discriminate.
  assert (OPENAI_API_KEY (world Scenario.first_run) ≠ "") as Ho
    by discriminate.
  assert (documents_of_first_run ≠ []) as Hdocs by discriminate.
  destruct (@first_run_chains_the_services sample_builtins Scenario.working
              Scenario.platform "%PDF-1.7" Scenario.first_run
              documents_of_first_run Hl Ho eq_refl eq_refl eq_refl Hdocs
              eq_refl) as (Hcalls & Hmd & _).
  split; [exact Hdocs|]. split; [by rewrite Hcalls | exact Hmd].
Defined.

(** X24: days that are [null] are an error for both renderers: with the
    key [giorni] present and its value [None], [json_to_text] and
    [get_weekly_plan] raise [TypeError]; the diagnostic of
    [json_to_text] is for the absent key only. *)
Theorem days_that_are_null_raise `{Builtins} (json_data : dict json) :
  Py.lookup "giorni" json_data = Some JNull →
  json_to_text (JDict json_data) = Raise TypeError
  ∧ get_weekly_plan (JDict json_data) = Raise TypeError.
Proof.
  intros Hdays. split.
  - unfold json_to_text. destruct json_data as [|kv d]; [done|].
    cbn [Py.truthy negb Py.contains Py.get]. rewrite bind_Ok, Hdays.
    reflexivity.
  - unfold get_weekly_plan. cbn [Py.get]. by rewrite Hdays.
Qed.

Lemma days_that_are_null_raise_sample :
  Py.lookup "giorni" [("giorni", JNull); ("note/consigli", JList [])]
  = Some JNull
  ∧ @json_to_text sample_builtins
      (JDict [("giorni", JNull); ("note/consigli", JList [])])
    = Raise TypeError.
Proof.
  split; [reflexivity|].
  exact (proj1 (@days_that_are_null_raise sample_builtins
                  [("giorni", JNull); ("note/consigli", JList [])] eq_refl)).
Defined.

(** X25: a day without the key [giorno] gets a substitute label: the
    text of the day, when it is built, starts with the line
    [Giorno: Non specificato], and the row of the day, when it is built,
    holds the empty string as its label. *)
Theorem missing_day_label_is_substituted `{Builtins} (giorno : dict json) :
  Py.lookup "giorno" giorno = None →
  (∀ output output',
     text_giorno (JDict giorno) output = Ok output' →
     ∃ rest, output' = output ++ "Giorno: Non specificato" :: rest)
  ∧ (∀ row, weekly_row (JDict giorno) = Ok row →
       Py.lookup "giorno" row = Some (JStr "")).
Proof.
  intros Hlabel. split.
  - intros output output'. unfold text_giorno. cbn [Py.get].
    rewrite Hlabel, bind_Ok. cbn [from_option id Py.format]. intros Hrun.
    apply bind_inv in Hrun as (o & Hloop & Hrun). injection Hrun as <-.
    apply for_each_extends in Hloop as [more ->];
      [|intros ? ? ?; apply text_pasto_extends].
    eexists. by rewrite <- !app_assoc.
  - intros row. unfold weekly_row. cbn [Py.get].
    rewrite Hlabel, bind_Ok. cbn [from_option id]. intros Hloop.
    apply (for_each_weekly_keeps (JDict giorno) "giorno" (JStr "") pasto_keys
             [("giorno", JStr "")] row); [|reflexivity|exact Hloop].
    unfold pasto_keys. by not_in_keys.
Qed.

Lemma missing_day_label_is_substituted_empty_day :
  Py.lookup "giorno" ([] : dict json) = None
  ∧ ∃ row, @weekly_row sample_builtins (JDict []) = Ok row
         ∧ Py.lookup "giorno" row = Some (JStr "").
Proof.
  split; [reflexivity|]. eexists. split; [reflexivity|].
  exact (proj2 (@missing_day_label_is_substituted sample_builtins []
                  eq_refl) _ eq_refl).
Defined.

(** ** The renderers on a plan with gaps *)

Section OnLoosePlans.
Context `{Builtins}.

Lemma text_item_loose (i : LooseItem) :
  text_item (Loose.item_json i) = Ok (Loose.item_text i).
Proof. by destruct i as [[a|] [q|]]. Qed.

Lemma cell_item_loose (i : LooseItem) :
  cell_item (Loose.item_json i) = Ok (Loose.item_cell i).
Proof. by destruct i as [[a|] [q|]]. Qed.

Lemma text_items_loose (l : list LooseItem) (out : list string) :
  text_items (Loose.items_json l) out = Ok (out ++ map Loose.item_text l).
Proof.
  unfold text_items, Loose.items_json. rewrite iter_list, bind_Ok.
  revert out. induction l as [|i l IH]; intros out.
  - cbn [map for_each]. by rewrite app_nil_r.
  - cbn [map for_each]. rewrite text_item_loose.
    unfold mret, result_ret. rewrite !bind_Ok, IH. by rewrite <- app_assoc.
Qed.

Lemma cell_items_loose (l : list LooseItem) :
  cell_items (Loose.items_json l) = Ok (map Loose.item_cell l).
Proof.
  unfold cell_items, Loose.items_json. rewrite iter_list, bind_Ok.
  enough (∀ acc, for_each (map Loose.item_json l)
            (λ item acc, s ← cell_item item; mret (acc ++ [s])) acc
          = Ok (acc ++ map Loose.item_cell l)) as Hl by apply Hl.
  induction l as [|i l IH]; intros acc.
  - cbn [map for_each]. by rewrite app_nil_r.
  - cbn [map for_each]. rewrite cell_item_loose.
    unfold mret, result_ret. rewrite !bind_Ok, IH. by rewrite <- app_assoc.
Qed.

Lemma get_slot (d : LooseDay) (p : pasto) :
  Py.get (Loose.day_json d) (pasto_key p) (JDict []) = Ok (Loose.slot_value d p).
Proof.
  destruct d as [label [c|] [sm|] [pr|] [sp|] [ce|]]; by destruct p.
Qed.

Lemma get_principale (d : LooseDay) (p : pasto) :
  Py.get (Loose.slot_value d p) "principale" (JList [])
  = Ok (Loose.items_json (Loose.principale d p)).
Proof.
  unfold Loose.slot_value, Loose.principale.
  by destruct (Loose.slot d p) as [[[l|] [l'|]]|].
Qed.

Lemma get_alternative (d : LooseDay) (p : pasto) :
  Py.get (Loose.slot_value d p) "alternative" (JList [])
  = Ok (Loose.items_json (Loose.alternative d p)).
Proof.
  unfold Loose.slot_value, Loose.alternative.
  by destruct (Loose.slot d p) as [[[l|] [l'|]]|].
Qed.

(** [pasto.get("alternative")] is falsy exactly when there is no
    alternative, and otherwise [pasto["alternative"]] is the list. *)
Lemma get_alternative_or_None (d : LooseDay) (p : pasto) :
  match Loose.alternative d p with
  | [] => ∃ v, Py.get (Loose.slot_value d p) "alternative" JNull = Ok v
             ∧ Py.truthy v = false
  | items =>
      Py.get (Loose.slot_value d p) "alternative" JNull
      = Ok (Loose.items_json items)
      ∧ Py.getitem (Loose.slot_value d p) "alternative"
        = Ok (Loose.items_json items)
  end.
Proof.
  unfold Loose.slot_value, Loose.alternative.
  destruct (Loose.slot d p) as [[[l|] [[|x l']|]]|]; cbn; eauto.
Qed.


Lemma truthy_no_items : Py.truthy (Loose.items_json []) = false.
Proof. reflexivity. Qed.

Lemma truthy_items (i : LooseItem) (l : list LooseItem) :
  Py.truthy (Loose.items_json (i :: l)) = true.
Proof. reflexivity. Qed.

Lemma text_pasto_loose (d : LooseDay) (p : pasto) (out : list string) :
  text_pasto (Loose.day_json d) (pasto_key p) out
  = Ok (out ++ Loose.pasto_lines d p).
Proof.
  unfold text_pasto, Loose.pasto_lines.
  rewrite get_slot, bind_Ok, get_principale, bind_Ok, get_alternative, bind_Ok.
  fold (Spec.pasto_header p).
  destruct (Loose.principale d p) as [|i1 l1],
           (Loose.alternative d p) as [|i2 l2];
    rewrite ?truthy_no_items, ?truthy_items;
    rewrite ?text_items_loose, ?bind_Ok;
    rewrite ?truthy_no_items, ?truthy_items, ?text_items_loose;
    unfold mret, result_ret; f_equal;
    rewrite <- ?app_assoc, ?app_nil_r; reflexivity.
Qed.

Lemma text_giorno_loose (d : LooseDay) (out : list string) :
  text_giorno (Loose.day_json d) out = Ok (out ++ Loose.giorno_lines d).
Proof.
  unfold text_giorno, Loose.giorno_lines.
  change (Py.get (Loose.day_json d) "giorno" (JStr "Non specificato"))
    with (Ok (A:=json) (JStr (day_giorno d))).
  rewrite bind_Ok. change pasto_keys with (map pasto_key pasti).
  assert (∀ out, for_each (map pasto_key pasti)
            (text_pasto (Loose.day_json d)) out
          = Ok (out ++ concat (map (Loose.pasto_lines d) pasti))) as ->.
  { intros o. generalize pasti. intros ps. revert o.
    induction ps as [|p ps IH]; intros o; cbn [map for_each concat].
    - by rewrite app_nil_r.
    - rewrite text_pasto_loose, bind_Ok, IH. by rewrite <- app_assoc. }
  rewrite bind_Ok. unfold mret, result_ret. f_equal.
  rewrite <- !app_assoc. reflexivity.
Qed.

Lemma text_note_loose (plan : LoosePlan) (out : list string) :
  text_note (Loose.plan_json plan) out
  = Ok (out ++ Spec.note_lines (plan_note plan)).
Proof.
  unfold text_note.
  change (Py.contains "note/consigli" (Loose.plan_json plan))
    with (Ok (A:=bool) true).
  rewrite bind_Ok.
  change (Py.getitem (Loose.plan_json plan) "note/consigli")
    with (Ok (A:=json) (JList (map JStr (plan_note plan)))).
  rewrite bind_Ok. unfold Spec.note_lines.
  destruct (plan_note plan) as [|n ns].
  - cbn [map Py.truthy]. by rewrite app_nil_r.
  - rewrite truthy_cons, iter_list, bind_Ok.
    generalize (n :: ns). intros l.
    assert (∀ o, for_each (map JStr l)
              (λ nota out, mret (out ++ ["• " +:+ Py.format nota])) o
            = Ok (o ++ map (λ nota, "• " +:+ nota) l)) as Hl.
    { induction l as [|x l IH]; intros o; cbn [map for_each].
      - by rewrite app_nil_r.
      - unfold mret, result_ret. rewrite bind_Ok. fold (@mret result _).
        unfold mret, result_ret in IH. rewrite IH. by rewrite <- app_assoc. }
    rewrite Hl. by rewrite <- app_assoc.
Qed.

(** On a plan with gaps [json_to_text] returns the report in closed
    form: it raises nothing. *)
Lemma json_to_text_loose (plan : LoosePlan) :
  json_to_text (Loose.plan_json plan)
  = Ok (PyStr.join PyStr.nl (Loose.report_lines plan)).
Proof.
  unfold json_to_text, Loose.report_lines.
  change (Py.truthy (Loose.plan_json plan)) with true.
  change (Py.contains "giorni" (Loose.plan_json plan))
    with (Ok (A:=bool) true).
  cbn [negb]. rewrite bind_Ok. cbn [negb].
  change (Py.get (Loose.plan_json plan) "giorni" (JList []))
    with (Ok (A:=json) (JList (map Loose.day_json (plan_giorni plan)))).
  rewrite bind_Ok, iter_list, bind_Ok.
  assert (∀ o, for_each (map Loose.day_json (plan_giorni plan)) text_giorno o
          = Ok (o ++ concat (map Loose.giorno_lines (plan_giorni plan))))
    as ->.
  { induction (plan_giorni plan) as [|d ds IH]; intros o;
      cbn [map for_each concat].
    - by rewrite app_nil_r.
    - rewrite text_giorno_loose, bind_Ok, IH. by rewrite <- app_assoc. }
  rewrite bind_Ok, text_note_loose, bind_Ok. reflexivity.
Qed.

Lemma weekly_pasto_loose (d : LooseDay) (p : pasto) (row : dict json) :
  weekly_pasto (Loose.day_json d) (pasto_key p) row
  = Ok (Py.set row (pasto_key p)
          (JStr (PyStr.join PyStr.nl (Loose.cell_lines d p)))).
Proof.
  unfold weekly_pasto, Loose.cell_lines.
  rewrite get_slot, bind_Ok, get_principale, bind_Ok, cell_items_loose,
    bind_Ok.
  pose proof (get_alternative_or_None d p) as Halt.
  destruct (Loose.alternative d p) as [|i2 l2].
  - destruct Halt as (v & -> & Hv). rewrite bind_Ok, Hv, app_nil_r.
    cbv beta iota. unfold mret, result_ret. rewrite bind_Ok.
    by destruct (Loose.principale d p).
  - destruct Halt as [-> ->]. rewrite bind_Ok.
    rewrite truthy_items, bind_Ok, cell_items_loose. unfold mret, result_ret.
    rewrite !bind_Ok. by destruct (Loose.principale d p).
Qed.

Lemma weekly_row_loose (d : LooseDay) :
  weekly_row (Loose.day_json d) = Ok (Loose.row_of d).
Proof.
  unfold weekly_row.
  change (Py.get (Loose.day_json d) "giorno" (JStr ""))
    with (Ok (A:=json) (JStr (day_giorno d))).
  rewrite bind_Ok. change pasto_keys with (map pasto_key pasti).
  unfold pasti. cbn [map for_each].
  do 5 (rewrite weekly_pasto_loose, bind_Ok). reflexivity.
Qed.

Lemma get_weekly_plan_loose (plan : LoosePlan) :
  get_weekly_plan (Loose.plan_json plan)
  = Ok (Pd.DataFrame_of (map Loose.row_of (plan_giorni plan))).
Proof.
  unfold get_weekly_plan.
  change (Py.get (Loose.plan_json plan) "giorni" (JList []))
    with (Ok (A:=json) (JList (map Loose.day_json (plan_giorni plan)))).
  rewrite bind_Ok, iter_list, bind_Ok.
  assert (∀ rows, for_each (map Loose.day_json (plan_giorni plan))
            (λ giorno rows,
               giorno_row ← weekly_row giorno; mret (rows ++ [giorno_row]))
            rows
          = Ok (rows ++ map Loose.row_of (plan_giorni plan))) as ->.
  { induction (plan_giorni plan) as [|d ds IH]; intros rows;
      cbn [map for_each].
    - by rewrite app_nil_r.
    - rewrite weekly_row_loose, bind_Ok. unfold mret, result_ret.
      rewrite bind_Ok. unfold mret, result_ret in IH. rewrite IH.
      by rewrite <- app_assoc. }
  reflexivity.
Qed.

End OnLoosePlans.

Lemma DataFrame_of_loose_rows (days : list LooseDay) :
  Pd.DataFrame_of (map Loose.row_of days)
  = {| columns := match days with [] => [] | _ => weekly_columns end;
       values := map Loose.row_cells days |}.
Proof.
  assert (∀ ds, fold_left
            (λ cols row, fold_left Pd.add_key (map fst row) cols)
            (map Loose.row_of ds) weekly_columns = weekly_columns) as Hcols.
  { induction ds as [|d ds IH]; [done|]. cbn [map fold_left]. apply IH. }
  unfold Pd.DataFrame_of. destruct days as [|d ds].
  - reflexivity.
  - change (fold_left _ (map Loose.row_of (d :: ds)) [])
      with (fold_left
              (λ cols row, fold_left Pd.add_key (map fst row) cols)
              (map Loose.row_of ds) weekly_columns).
    rewrite Hcols. f_equal. rewrite map_map. reflexivity.
Qed.

Lemma elem_of_concat_map {A B} (f : A → list B) (l : list A) (a : A) (x : B) :
  a ∈ l → x ∈ f a → x ∈ concat (map f l).
Proof.
  induction l as [|a' l IH]; intros Ha Hx; [by apply elem_of_nil in Ha|].
  cbn [map concat]. apply elem_of_app.
  apply elem_of_cons in Ha as [->|Ha]; [by left|right; by apply IH].
Qed.

Lemma pasti_split (p : pasto) : ∃ l1 l2, pasti = l1 ++ p :: l2.
Proof.
  destruct p.
  - by exists [], [SpuntinoMattina; Pranzo; SpuntinoPomeriggio; Cena].
  - by exists [Colazione], [Pranzo; SpuntinoPomeriggio; Cena].
  - by exists [Colazione; SpuntinoMattina], [SpuntinoPomeriggio; Cena].
  - by exists [Colazione; SpuntinoMattina; Pranzo], [Cena].
  - by exists [Colazione; SpuntinoMattina; Pranzo; SpuntinoPomeriggio], [].
Qed.

Lemma no_data_lines (d : LooseDay) (p : pasto) :
  Loose.has_no_data d p = true →
  Loose.pasto_lines d p
  = [Spec.pasto_header p; "  - Principale: Nessun dato"]
  ∧ Loose.cell_lines d p = [].
Proof.
  unfold Loose.has_no_data, Loose.pasto_lines, Loose.cell_lines.
  by destruct (Loose.principale d p), (Loose.alternative d p).
Qed.

Lemma item_line_shown (d : LooseDay) (p : pasto) (item : LooseItem) :
  item ∈ Loose.principale d p ++ Loose.alternative d p →
  Loose.item_text item ∈ Loose.pasto_lines d p.
Proof.
  unfold Loose.pasto_lines. intros [Hin|Hin]%elem_of_app.
  - destruct (Loose.principale d p) as [|x l]; [by apply elem_of_nil in Hin|].
    apply elem_of_cons. right. apply elem_of_app. left.
    apply elem_of_cons. right.
    by apply list_elem_of_In, in_map, list_elem_of_In.
  - destruct (Loose.alternative d p) as [|x l]; [by apply elem_of_nil in Hin|].
    apply elem_of_cons. right. apply elem_of_app. right.
    apply elem_of_cons. right.
    by apply list_elem_of_In, in_map, list_elem_of_In.
Qed.

(** The cell of a meal in the table of a plan with gaps. *)
Lemma loose_table_cell (days : list LooseDay) (i : nat) (d : LooseDay)
    (p : pasto) :
  days !! i = Some d →
  Pd.at_ {| columns := match days with [] => [] | _ => weekly_columns end;
            values := map Loose.row_cells days |} i (pasto_key p)
  = Some (JStr (PyStr.join PyStr.nl (Loose.cell_lines d p))).
Proof.
  intros Hd. unfold Pd.at_. cbn [values columns].
  rewrite list_lookup_fmap, Hd.
  cbn [fmap option_fmap option_map mbind option_bind].
  destruct days as [|d0 ds]; [by rewrite lookup_nil in Hd|].
  by destruct p.
Qed.

(** C6: for every plan, with whatever gaps, and every meal of a day of it
    that has no data (the key of the meal is absent, or each of its two
    lists is missing or empty), both functions return and show the meal.
    [json_to_text] returns the report, in which the block of that day
    holds the header of the meal followed by its no-data line;
    [get_weekly_plan] returns the table, which has the six columns, the
    one of the meal among them, and one row per day, and whose cell for
    that day and meal is the empty string. *)
Theorem no_data_is_made_explicit `{Builtins} (plan : LoosePlan) (i : nat)
    (d : LooseDay) (p : pasto) :
  plan_giorni plan !! i = Some d →
  Loose.has_no_data d p = true →
  ∃ earlier later df,
    json_to_text (Loose.plan_json plan)
    = Ok (PyStr.join PyStr.nl
            (concat (map Loose.giorno_lines (take i (plan_giorni plan))) ++
             (("Giorno: " +:+ day_giorno d) ::
              earlier ++
              [Spec.pasto_header p; "  - Principale: Nessun dato"] ++
              later) ++
             concat (map Loose.giorno_lines
                       (drop (S i) (plan_giorni plan))) ++
             Spec.note_lines (plan_note plan)))
    ∧ get_weekly_plan (Loose.plan_json plan) = Ok df
    ∧ columns df = ["giorno"; "colazione"; "spuntino_mattina"; "pranzo";
                    "spuntino_pomeriggio"; "cena"]
    ∧ length (values df) = length (plan_giorni plan)
    ∧ Pd.at_ df i (pasto_key p) = Some (JStr "").
Proof.
  intros Hd Hp. destruct (no_data_lines d p Hp) as [Hlines Hcell].
  destruct (pasti_split p) as (l1 & l2 & Hpasti).
  exists (concat (map (Loose.pasto_lines d) l1)),
         (concat (map (Loose.pasto_lines d) l2) ++ [Spec.separator]).
  eexists. split; [|split; [apply get_weekly_plan_loose|]].
  - rewrite json_to_text_loose. do 2 f_equal. unfold Loose.report_lines.
    rewrite <- (take_drop_middle _ _ _ Hd) at 1.
    rewrite map_app, concat_app. cbn [map concat].
    rewrite <- !app_assoc. do 2 f_equal.
    unfold Loose.giorno_lines. rewrite Hpasti, map_app, concat_app.
    cbn [map concat]. rewrite Hlines. by rewrite <- !app_assoc.
  - rewrite DataFrame_of_loose_rows. cbn [columns values].
    rewrite (loose_table_cell _ _ _ p Hd), Hcell, length_map.
    split; [|done].
    destruct (plan_giorni plan); [by rewrite lookup_nil in Hd|done].
Qed.

Lemma no_data_is_made_explicit_only_label :
  plan_giorni Loose.two_days !! 0 = Some Loose.only_label
  ∧ Loose.has_no_data Loose.only_label Pranzo = true
  ∧ ∃ df, @get_weekly_plan sample_builtins (Loose.plan_json Loose.two_days)
          = Ok df
        ∧ Pd.at_ df 0 "pranzo" = Some (JStr "")
        ∧ length (columns df) = 6.
Proof.
  destruct (@no_data_is_made_explicit sample_builtins Loose.two_days 0
              Loose.only_label Pranzo eq_refl eq_refl)
    as (earlier & later & df & _ & Htable & Hcols & _ & Hcell).
  split; [reflexivity|]. split; [reflexivity|].
  exists df. split; [exact Htable|]. split; [exact Hcell|].
  by rewrite Hcols.
Defined.

(** C10: for every plan, with whatever gaps, both functions return, and
    an item that lacks its name or its quantity is rendered with a
    substitute.  In the report of [json_to_text] every item of a meal,
    primary or alternative, has its line, with [N/A] for an absent name
    and for an absent quantity; in the table of [get_weekly_plan] the
    cell of the meal lists the items with the empty string for them. *)
Theorem absent_fields_are_substituted `{Builtins} (plan : LoosePlan)
    (i : nat) (d : LooseDay) (p : pasto) :
  plan_giorni plan !! i = Some d →
  ∃ lines df,
    json_to_text (Loose.plan_json plan) = Ok (PyStr.join PyStr.nl lines)
    ∧ (∀ item, item ∈ Loose.principale d p ++ Loose.alternative d p →
         ("    • " +:+ default "N/A" (item_alimento item) +:+ ": " +:+
          default "N/A" (item_quantita item)) ∈ lines)
    ∧ get_weekly_plan (Loose.plan_json plan) = Ok df
    ∧ Pd.at_ df i (pasto_key p)
      = Some (JStr (PyStr.join PyStr.nl
           (map (λ item, default "" (item_alimento item) +:+ " (" +:+
                         default "" (item_quantita item) +:+ ")")
                (Loose.principale d p) ++
            match Loose.alternative d p with
            | [] => []
            | items =>
                ["Alternative: " +:+
                 PyStr.join ", "
                   (map (λ item, default "" (item_alimento item) +:+ " (" +:+
                                 default "" (item_quantita item) +:+ ")")
                        items)]
            end))).
Proof.
  intros Hd. exists (Loose.report_lines plan). eexists.
  split; [apply json_to_text_loose|].
  split; [|split; [apply get_weekly_plan_loose|]].
  - intros item Hitem. unfold Loose.report_lines. apply elem_of_app. left.
    apply (elem_of_concat_map _ _ d); [by eapply list_elem_of_lookup_2|].
    unfold Loose.giorno_lines. apply elem_of_cons. right.
    apply elem_of_app. left.
    apply (elem_of_concat_map _ _ p); [|by apply item_line_shown].
    destruct p; unfold pasti; rewrite !elem_of_cons; auto 10.
  - rewrite DataFrame_of_loose_rows. apply (loose_table_cell _ _ _ p Hd).
Qed.

Lemma absent_fields_are_substituted_tea :
  plan_giorni Loose.two_days !! 1 = Some Loose.tea_day
  ∧ ∃ lines df,
      @json_to_text sample_builtins (Loose.plan_json Loose.two_days)
      = Ok (PyStr.join PyStr.nl lines)
      ∧ "    • Tea: N/A" ∈ lines
      ∧ @get_weekly_plan sample_builtins (Loose.plan_json Loose.two_days)
        = Ok df
      ∧ Pd.at_ df 1 "colazione" = Some (JStr "Tea ()").
Proof.
  destruct (@absent_fields_are_substituted sample_builtins Loose.two_days 1
              Loose.tea_day Colazione eq_refl)
    as (lines & df & Htext & Hline & Htable & Hcell).
  split; [reflexivity|]. exists lines, df.
  split; [exact Htext|]. split; [|split; [exact Htable | exact Hcell]].
  apply (Hline Loose.tea). apply elem_of_cons. by left.
Defined.

(** C8 as stated fails on an answer that is not JSON and that
    [json.loads] accepts all the same.  The text [NaN] cannot start a
    JSON value; Python parses it to the float, so [process_md_gpt]
    returns that float as its result and reports success, and the raw
    text is not shown. *)
Lemma NaN_is_returned_as_the_plan :
  may_be_json "NaN" = false
  ∧ @json_loads Scenario.answers_NaN "NaN" = inr Scenario.nan
  ∧ (@process_md_gpt Scenario.answers_NaN (Some "# Piano")
       Sample.with_keys).1 = Scenario.nan
  ∧ (@process_md_gpt Scenario.answers_NaN (Some "# Piano")
       Sample.with_keys).1 ≠ JNull
  ∧ elements (@process_md_gpt Scenario.answers_NaN (Some "# Piano")
                Sample.with_keys).2
    = [st_info "Processing del markdown con gpt-4o-mini...";
       st_success "Estrazione JSON completata con successo."].
Proof.
  split; [reflexivity|]. split; [reflexivity|]. split; [reflexivity|].
  split; [discriminate | reflexivity].
Qed.
